(** * bedrock-passport: request authentication and session routes

    A shallow embedding of [lib/passport.js] (the [api.checkAuthentication],
    [api.optionallyAuthenticated], [api.ensureAuthenticated] and [api.login]
    functions) and of the session route file ([addRoutes], [_login],
    [_createIdentity]), followed by the properties established about them.

    The callback-passing JavaScript is written in direct style: a function
    that ends by invoking [callback(err, value)] returns a [Result]; a route
    handler returns what it did with [res] and [next]. Calls into the
    external collaborators (identity module, passport strategies, schema
    validator, event bus) go through an environment record and are logged in
    a trace, so that "is invoked", "is never invoked" and "in this order" are
    statements about that trace. *)

From Stdlib Require Import String List ZArith Bool Lia.
From Equations Require Import Equations.
From stdpp Require Import base strings gmap list.

Local Open Scope string_scope.
Local Open Scope Z_scope.
Set Warnings "-register-all".

(** ** JavaScript values used by the module *)

(** A user object that carries an identity, as the strategies build it:
    [{identity: <identity document>}]. Identity documents, [req.body] and
    [req.query] are flat objects with string fields; a missing field reads
    as [undefined] ([None]). The user [{identity: null}], which
    [passport.deserializeUser] builds for a session that stores no identity
    ID, is a [SessionUser] below; reading [identity.id] of it throws, and
    the functions that do so are modelled for users with an identity. *)
Record User := { identity : gmap string string }.

(** What a check hands to its callback as the "user": [undefined], [false]
    or a user object. *)
Inductive Value :=
| VUndefined
| VFalse
| VUser (u : User).

Definition truthy (v : Value) : bool :=
  match v with
  | VUser _ => true
  | VUndefined | VFalse => false
  end.

(** JavaScript [a || b]. *)
Definition js_or (a b : Value) : Value := if truthy a then a else b.

(** ** Errors *)

(** The [details] object given to [new BedrockError(...)]; a field that is
    not set is [None]. *)
Record Details := {
  public : option bool;
  httpStatusCode : option Z;
  sysIdentifier : option string;
  details_identity : option string
}.

Definition no_details : Details :=
  {| public := None; httpStatusCode := None;
     sysIdentifier := None; details_identity := None |}.

(** [{'public': true, httpStatusCode: code}] *)
Definition public_status (code : Z) : Details :=
  {| public := Some true; httpStatusCode := Some code;
     sysIdentifier := None; details_identity := None |}.

(** [new BedrockError(message, type, details, cause)] sets [name] to the
    type; every other error (raised by a collaborator) is [ExternalError]. *)
Inductive Error :=
| BedrockError (message name : string) (details : Details)
               (cause : option Error)
| ExternalError (tag : string).

Definition error_name (e : Error) : option string :=
  match e with
  | BedrockError _ n _ _ => Some n
  | ExternalError _ => None
  end.

Definition error_details (e : Error) : option Details :=
  match e with
  | BedrockError _ _ d _ => Some d
  | ExternalError _ => None
  end.

(** The two arguments of a node-style [callback(err, value)]. *)
Inductive Result (A : Type) :=
| Ok (a : A)
| Err (e : Error).
Arguments Ok {A} a.
Arguments Err {A} e.

(** ** Requests *)

Record Request := {
  user : Value;                (* req.user *)
  body : gmap string string;   (* req.body *)
  query : gmap string string   (* req.query *)
}.

Definition set_user (req : Request) (v : Value) : Request :=
  {| user := v; body := body req; query := query req |}.

Definition set_body (req : Request) (b : gmap string string) : Request :=
  {| user := user req; body := b; query := query req |}.

(** ** Responses *)

(** [choice]: the email address used and the map identity ID => identity of
    the identities that match. *)
Record Choice := {
  choice_email : option string;
  identities : gmap string (gmap string string)
}.

(** The bodies this module sends with [res.json]. *)
Inductive Payload :=
| IdentityDocument (ident : gmap string string)
| LoginIdentity (ident : gmap string string)     (* {identity: ...} *)
| LoginChoice (choice : Choice).                 (* {email: ..., identities: ...} *)

Inductive Reply :=
| Json (status : Z) (location : option (option string)) (payload : Payload)
| Send (status : Z)
| View (name : string).

(** How a route handler ends: it answers, it calls [next], it throws, or
    it does neither because an inner callback is never invoked. *)
Inductive HandlerResult :=
| Responded (r : Reply)
| CalledNext (err : option Error)
| Threw
| NoReply.

(** The argument of [validate]: a schema name for the body, or
    [{query: name}] for the query. *)
Inductive Schema :=
| BodySchema (name : string)
| QuerySchema (name : string).

(** ** The external collaborators *)

(** The [info] argument the password strategy gives the custom callback of
    [passport.authenticate]: [matches] is set when several identities match
    the credentials. *)
Record Info := {
  matches : option (list string);
  email : option string
}.

(** How [passport.authenticate(name, custom)(req, res, next)] ends: it calls
    the custom callback with [(err, user, info)], or it calls [next(err)]. *)
Inductive AuthenticateOutcome :=
| CustomCallback (err : option Error) (u : Value) (info : option Info)
| NextCalled (err : option Error).

(** A record returned by [brIdentity.getIdentities]: [{identity: ...}]. *)
Record IdentityRecord := { record_identity : gmap string string }.

(** The collaborators are black boxes: each is a function of the state of
    the world outside this module, which it may change. *)
Record Env := {
  World : Type;
  (* bedrock.config.passport.authentication.httpSignature.enabled *)
  httpSignature_enabled : World -> bool;
  (* bedrock.config.constants.CONTEXT_URL *)
  CONTEXT_URL : string;
  (* passport.authenticate(strategy, custom)(req, res, next) *)
  passport_authenticate :
    string -> Request -> World -> AuthenticateOutcome * World;
  (* req.logIn(user, callback) *)
  req_logIn : Request -> User -> World -> option Error * World;
  (* the middleware made by validate(schema): None when the request is valid *)
  validate_request : Schema -> Request -> option Error;
  brIdentity_resolveIdentityIdentifier :
    option string -> World -> Result (list string) * World;
  brIdentity_setIdentityPassword :
    string -> gmap string string -> World -> option Error * World;
  brIdentity_getIdentities :
    list string -> World -> Result (list IdentityRecord) * World;
  brIdentity_sendIdentityPasscodes :
    list (gmap string string) -> string -> World -> option Error * World;
  brIdentity_getIdentity :
    string -> World -> Result (gmap string string) * World;
  brIdentity_createIdentityId : option string -> string;
  brIdentity_createIdentity :
    gmap string string -> World -> Result IdentityRecord * World;
  db_hash : string -> string;
  db_isDuplicateError : Error -> bool;
  (* the GET handlers of the route file (views, logout), by path *)
  view_handler : string -> Request -> World -> HandlerResult * World
}.

(** Calls into the collaborators, as they appear in the trace. *)
Inductive Event :=
| EvValidate (schema : Schema)
| EvAuthenticate (strategy : string)
| EvLogIn (u : User)
| EvResolveIdentityIdentifier (identifier : option string)
| EvSetIdentityPassword (actor : string) (ident : gmap string string)
                        (ok : bool)
| EvGetIdentities (hashes : list string)
| EvSendIdentityPasscodes (identities : list (gmap string string))
                          (usage : string)
| EvGetIdentity (id : string)
| EvCreateIdentity (ident : gmap string string)
| EvEmitLater (type : string) (ident : gmap string string).

(** ** State passing *)

Section Monad.
Context (E : Env).

Record State := { world : World E; trace : list Event }.

Definition M (A : Type) : Type := State -> A * State.

Definition ret {A} (a : A) : M A := fun st => (a, st).

Definition bind {A B} (m : M A) (k : A -> M B) : M B :=
  fun st => let (a, st') := m st in k a st'.

(** Read the world. *)
Definition ask {A} (f : World E -> A) : M A :=
  fun st => (f (world st), st).

(** Call a collaborator and log the call; the event may record the
    answer. *)
Definition call {A} (f : World E -> A * World E) (ev : A -> Event) : M A :=
  fun st =>
    let (a, w) := f (world st) in
    (a, {| world := w; trace := trace st ++ [ev a] |}).

(** An effect that is only logged. *)
Definition emit (ev : Event) : M unit :=
  fun st => (tt, {| world := world st; trace := trace st ++ [ev] |}).
End Monad.

Arguments ret {E A} a.
Arguments emit {E} ev.
Arguments bind {E A B} m k.
Arguments ask {E A} f.
Arguments call {E A} f ev.
Arguments world {E} s.
Arguments trace {E} s.

Notation "x <- c1 ;; c2" := (bind c1 (fun x => c2))
  (at level 100, c1 at next level, right associativity).

(** ** The parts of the async library the module uses *)

Module Async.
Section Async.
Context {E : Env}.

(** A task of [async.auto]: its key, the keys it waits for, and the
    function that is given the results so far. *)
Record Task := {
  task_name : string;
  task_deps : list string;
  task_fn : gmap string Value -> M E (Result Value)
}.

Definition ready (results : gmap string Value) (t : Task) : bool :=
  forallb (fun d => bool_decide (is_Some (results !! d))) (task_deps t).

(** The task that completes next among the ready ones; the choice [k]
    stands for the timing of the callbacks. *)
Definition pick (k : nat) (rdy : list Task) : option Task :=
  rdy !! (k mod length rdy)%nat.

Definition others (t : Task) (pending : list Task) : list Task :=
  List.filter (fun t' => negb (String.eqb (task_name t') (task_name t)))
              pending.

(** [async.auto(tasks, final)]: tasks complete one at a time in an order
    given by the schedule; the first error goes to the final callback at
    once, otherwise the final callback gets all results. [None]: no task
    can run and the final callback is never invoked. *)
Fixpoint auto_loop (n : nat) (sched : list nat) (pending : list Task)
    (results : gmap string Value)
    : M E (option (Result (gmap string Value))) :=
  match pending, n with
  | [], _ => ret (Some (Ok results))
  | _ :: _, O => ret None
  | _ :: _, S n' =>
      match pick (hd O sched) (List.filter (ready results) pending) with
      | None => ret None
      | Some t =>
          r <- task_fn t results ;;
          match r with
          | Err e => ret (Some (Err e))
          | Ok v =>
              auto_loop n' (tl sched) (others t pending)
                        (<[task_name t := v]> results)
          end
      end
  end.

Definition auto (sched : list nat) (tasks : list Task)
    : M E (option (Result (gmap string Value))) :=
  auto_loop (length tasks) sched tasks ∅.

(** [async.forEach(arr, iterator, final)]: the iterator is started on
    every element; [final] gets the first error, if any. The variables
    the iterator closes over are the state [S]; the iterators complete in
    array order. *)
Fixpoint forEach {A S : Type} (arr : list A)
    (iterator : A -> S -> M E (option Error * S)) (s : S)
    : M E (option Error * S) :=
  match arr with
  | [] => ret (None, s)
  | x :: xs =>
      r <- iterator x s ;;
      r' <- forEach xs iterator (snd r) ;;
      ret (match fst r with
           | Some err => Some err
           | None => fst r'
           end, snd r')
  end.
End Async.

(** A value together with the equation that it is that value. *)
Definition inspect {A : Type} (x : A) : { y : A | x = y } :=
  exist _ x eq_refl.

(** [async.until(test, fn, callback)]: while [test()] is false run [fn],
    then call back. The variables that [test] and [fn] close over are the
    state [S]. The loop is defined for a body that decreases a measure each
    time it runs. *)
Section Until.
Context {E : Env} {S : Type}.
Variables (test : S -> bool) (fn : S -> M E S) (measure : S -> nat).
Hypothesis fn_decreases :
  forall s st, test s = false -> (measure (fst (fn s st)) < measure s)%nat.

Equations? until (s : S) (st : State E) : S * State E
  by wf (measure s) lt :=
  until s st with inspect (test s) := {
    | exist _ true _ => (s, st)
    | exist _ false H => until (fst (fn s st)) (snd (fn s st)) }.
Proof. apply fn_decreases. exact H. Qed.
End Until.
End Async.

(** [req.isAuthenticated()], which passport adds to the request: whether
    [req.user] is set. *)
Definition isAuthenticated (req : Request) : bool := truthy (user req).

(** Reading a property of a results object; a missing key is [undefined]. *)
Definition prop (results : gmap string Value) (k : string) : Value :=
  default VUndefined (results !! k).

(** How a login function ends: it calls [callback(err, user, choice)], or
    [next(err)] is called (by the function or by passport), or reading
    [info.matches] of an undefined [info] throws. *)
Inductive LoginOutcome :=
| Callback (err : option Error) (u : Value) (choice : option Choice)
| LoginNext (err : option Error)
| LoginThrows.

(** What a middleware did with [next]: [next()], [next(err)], or nothing
    (an inner callback was never invoked). *)
Inductive NextCall :=
| Next (err : option Error)
| NoNext.

(** ** lib/passport.js *)

Module PassportLib.

Definition MODULE_NS : string := "bedrock.website".

Section PassportLib.
Context {E : Env}.

(** The [session] task of [api.checkAuthentication]. *)
Definition session (req : Request) : Async.Task (E:=E) :=
  {| Async.task_name := "session";
     Async.task_deps := [];
     Async.task_fn := fun _ =>
       ret (Ok (if isAuthenticated req then user req else VFalse)) |}.

(** The [httpSignature] task. The custom callback passes on [err] or
    [user]; the function given as [next] passes on its argument, so a bare
    [next()] completes the task with [undefined]. *)
Definition httpSignature (req : Request) : Async.Task (E:=E) :=
  {| Async.task_name := "httpSignature";
     Async.task_deps := [];
     Async.task_fn := fun _ =>
       enabled <- ask (httpSignature_enabled E) ;;
       if negb enabled then ret (Ok VFalse)
       else
         o <- call (passport_authenticate E "bedrock.httpSignature" req)
                   (fun _ => EvAuthenticate "bedrock.httpSignature") ;;
         ret (match o with
              | CustomCallback (Some err) _ _ => Err err
              | CustomCallback None u _ => Ok u
              | NextCalled (Some err) => Err err
              | NextCalled None => Ok VUndefined
              end) |}.

Definition mismatch : Error :=
  BedrockError "Request authentication mismatch."
               (MODULE_NS +:+ ".PermissionDenied") (public_status 400) None.

(** The [auth] task: both present and [session.identity.id !==
    httpSignature.identity.id] is a mismatch; otherwise
    [results.session || results.httpSignature || false]. *)
Definition auth : Async.Task (E:=E) :=
  {| Async.task_name := "auth";
     Async.task_deps := ["session"; "httpSignature"];
     Async.task_fn := fun results =>
       let session := prop results "session" in
       let httpSignature := prop results "httpSignature" in
       ret (match session, httpSignature with
            | VUser s, VUser h =>
                if bool_decide (identity s !! "id" ≠ identity h !! "id")
                then Err mismatch
                else Ok (js_or (js_or session httpSignature) VFalse)
            | _, _ => Ok (js_or (js_or session httpSignature) VFalse)
            end) |}.

Definition authentication_error (err : Error) : Error :=
  BedrockError "Request authentication error."
               (MODULE_NS +:+ ".PermissionDenied") (public_status 400)
               (Some err).

(** [api.checkAuthentication(req, res, callback)]: what [callback] is
    invoked with ([None]: it is not invoked). [sched] is the order in
    which the parallel tasks complete. *)
Definition checkAuthentication (sched : list nat) (req : Request)
    : M E (option (Result Value)) :=
  r <- Async.auto sched [session req; httpSignature req; auth] ;;
  ret (match r with
       | None => None
       | Some (Err err) => Some (Err (authentication_error err))
       | Some (Ok results) => Some (Ok (prop results "auth"))
       end).

(** [api.optionallyAuthenticated(req, res, next)]: the request as it is
    when [next] is reached, and the call of [next]. *)
Definition optionallyAuthenticated (sched : list nat) (req : Request)
    : M E (Request * NextCall) :=
  r <- checkAuthentication sched req ;;
  ret (match r with
       | None => (req, NoNext)
       | Some (Err err) => (req, Next (Some err))
       | Some (Ok info) =>
           if truthy info then (set_user req info, Next None)
           else (req, Next None)
       end).

Definition not_authenticated : Error :=
  BedrockError "Not authenticated."
               (MODULE_NS +:+ ".PermissionDenied") (public_status 400) None.

(** [api.ensureAuthenticated(req, res, next)] *)
Definition ensureAuthenticated (sched : list nat) (req : Request)
    : M E (Request * NextCall) :=
  r <- optionallyAuthenticated sched req ;;
  let (req', n) := r in
  ret (match n with
       | NoNext => (req', NoNext)
       | Next (Some err) => (req', Next (Some err))
       | Next None =>
           if truthy (user req') then (req', Next None)
           else (req', Next (Some not_authenticated))
       end).

Definition invalid_login : Error :=
  BedrockError ("The email address and password combination " +:+
                "you entered is incorrect.")
               "bedrock.services.InvalidLogin" (public_status 400) None.

(** The iterator of [async.forEach(info.matches, ...)]:
    [choice.identities[id] = identity], unless the lookup fails. *)
Definition add_identity (id : string) (choice : Choice)
    : M E (option Error * Choice) :=
  r <- call (brIdentity_getIdentity E id) (fun _ => EvGetIdentity id) ;;
  ret (match r with
       | Err err => (Some err, choice)
       | Ok ident =>
           (None, {| choice_email := choice_email choice;
                     identities := <[id := ident]> (identities choice) |})
       end).

(** [api.login(req, res, next, callback)] *)
Definition login (req : Request) : M E LoginOutcome :=
  o <- call (passport_authenticate E "bedrock.password" req)
            (fun _ => EvAuthenticate "bedrock.password") ;;
  match o with
  | NextCalled err => ret (LoginNext err)
  | CustomCallback err (VUser u) _ =>
      match err with
      | Some e => ret (Callback (Some e) VUndefined None)
      | None =>
          e <- call (req_logIn E req u) (fun _ => EvLogIn u) ;;
          ret (Callback e (VUser u) None)
      end
  | CustomCallback _ _ None => ret LoginThrows
  | CustomCallback _ _ (Some info) =>
      match matches info with
      | Some ids =>
          (* multiple identity matches *)
          r <- Async.forEach ids add_identity
                 {| choice_email := email info; identities := ∅ |} ;;
          match fst r with
          | Some e => ret (Callback (Some e) VUndefined None)
          | None => ret (Callback None VFalse (Some (snd r)))
          end
      | None =>
          (* user not authenticated *)
          ret (Callback (Some invalid_login) VUndefined None)
      end
  end.
End PassportLib.
End PassportLib.

(** ** The session route file *)

Module Routes.

Definition MODULE_NS : string := "bedrock.services".

(** The variables of the password-reset loop. *)
Record ResetLoop := { success : Z; identityIds : list string }.

Section Routes.
Context {E : Env}.

Definition Handler : Type := Request -> M E HandlerResult.

(** The middleware made by [validate(schema)]: [next()] for a valid
    request, [next(err)] otherwise. *)
Definition validate (schema : Schema) : Handler := fun req =>
  _ <- emit (EvValidate schema) ;;
  ret (CalledNext (validate_request E schema req)).

(** Reading and writing a field of a flat object; writing [undefined]
    makes the field read as [undefined]. *)
Definition set_field (k : string) (v : option string)
    (o : gmap string string) : gmap string string :=
  match v with
  | Some x => <[k := x]> o
  | None => delete k o
  end.

Definition duplicate_identity (identityId : string) : Error :=
  BedrockError "Could not create identity, it is a duplicate."
               (MODULE_NS +:+ ".DuplicateIdentity")
               {| public := Some true; httpStatusCode := Some 400;
                  sysIdentifier := None;
                  details_identity := Some identityId |}
               None.

(** [api._createIdentity(options, req, callback)]; the [async.auto] has
    the single task [createIdentity]. The result is the [details]
    object [{identity: ...}], given here by its identity. *)
Definition _createIdentity (req : Request)
    : M E (Result (gmap string string)) :=
  let identityId := brIdentity_createIdentityId E (body req !! "sysSlug") in
  let ident :=
    set_field "sysPassword" (body req !! "sysPassword")
      (set_field "email" (body req !! "email")
        (set_field "label" (body req !! "label")
          (set_field "sysSlug" (body req !! "sysSlug")
            (<["id" := identityId]>
              (<["@context" := CONTEXT_URL E]> ∅))))) in
  r <- call (brIdentity_createIdentity E ident)
            (fun _ => EvCreateIdentity ident) ;;
  match r with
  | Err err =>
      ret (Err (if db_isDuplicateError E err
                then duplicate_identity identityId else err))
  | Ok record =>
      _ <- emit (EvEmitLater "brIdentity.created" (record_identity record)) ;;
      ret (Ok (record_identity record))
  end.

Definition invalid_login : Error :=
  BedrockError ("The email address and password combination " +:+
                "you entered is incorrect.")
               (MODULE_NS +:+ ".InvalidLogin") (public_status 400) None.

Definition add_identity (id : string) (choice : Choice)
    : M E (option Error * Choice) :=
  r <- call (brIdentity_getIdentity E id) (fun _ => EvGetIdentity id) ;;
  ret (match r with
       | Err err => (Some err, choice)
       | Ok ident =>
           (None, {| choice_email := choice_email choice;
                     identities := <[id := ident]> (identities choice) |})
       end).

(** [_login(req, res, next, callback)] *)
Definition _login (req : Request) : M E LoginOutcome :=
  o <- call (passport_authenticate E "bedrock.password" req)
            (fun _ => EvAuthenticate "bedrock.password") ;;
  match o with
  | NextCalled err => ret (LoginNext err)
  | CustomCallback err (VUser u) _ =>
      match err with
      | Some e => ret (LoginNext (Some e))
      | None =>
          e <- call (req_logIn E req u) (fun _ => EvLogIn u) ;;
          ret (Callback e (VUser u) None)
      end
  | CustomCallback _ _ None => ret LoginThrows
  | CustomCallback _ _ (Some info) =>
      match matches info with
      | Some ids =>
          (* multiple identity matches *)
          r <- Async.forEach ids add_identity
                 {| choice_email := email info; identities := ∅ |} ;;
          match fst r with
          | Some e => ret (LoginNext (Some e))
          | None => ret (Callback None VFalse (Some (snd r)))
          end
      | None =>
          (* some other error *)
          ret (LoginNext (Some invalid_login))
      end
  end.

Definition auto_login_failed (err : Error) : Error :=
  BedrockError "Could not create a session for the newly created identity."
               (MODULE_NS +:+ ".AutoLoginFailed") no_details (Some err).

(** The handler of [POST /join]. *)
Definition postJoin : Handler := fun req =>
  r <- _createIdentity req ;;
  match r with
  | Err err => ret (CalledNext (Some err))
  | Ok ident =>
      let req' :=
        set_body req
          (set_field "password" (body req !! "sysPassword")
            (set_field "sysIdentifier" (ident !! "id") (body req))) in
      o <- _login req' ;;
      ret (match o with
           | LoginNext err => CalledNext err
           | LoginThrows => Threw
           | Callback (Some err) _ _ =>
               CalledNext (Some (auto_login_failed err))
           | Callback None _ _ =>
               (* return identity *)
               Responded (Json 201 (Some (ident !! "id"))
                               (IdentityDocument ident))
           end)
  end.

(** The handler of [POST /session/login]. *)
Definition postLogin : Handler := fun req =>
  o <- _login req ;;
  ret (match o with
       | LoginNext err => CalledNext err
       | LoginThrows => Threw
       | Callback (Some err) _ _ => CalledNext (Some err)
       | Callback None (VUser u) _ =>
           Responded (Json 200 None (LoginIdentity (identity u)))
       | Callback None _ (Some choice) =>
           (* multiple identities matched credentials *)
           Responded (Json 200 None (LoginChoice choice))
       | Callback None _ None => Threw
       end).

(** The loop of [POST /session/password/reset]: [test] is
    [success !== 0]; the body takes the next identity ID off the list and
    tries to set its password, or gives up on an empty list. *)
Definition reset_test (s : ResetLoop) : bool := negb (success s =? 0).

Definition reset_fn (req : Request) (s : ResetLoop) : M E ResetLoop :=
  match identityIds s with
  | [] => ret {| success := -1; identityIds := [] |}
  | next :: rest =>
      let ident := <["id" := next]> (body req) in
      err <- call (brIdentity_setIdentityPassword E next ident)
                  (fun err => EvSetIdentityPassword next ident
                                (bool_decide (err = None))) ;;
      ret {| success := match err with
                        | None => 1
                        | Some _ => success s
                        end;
             identityIds := rest |}
  end.

Definition reset_measure (s : ResetLoop) : nat :=
  (length (identityIds s) + if (success s =? 0)%Z then 1 else 0)%nat.

Lemma reset_fn_decreases req s st :
  reset_test s = false ->
  (reset_measure (fst (reset_fn req s st)) < reset_measure s)%nat.
Proof.
  unfold reset_test, reset_measure, reset_fn. intros Ht.
  apply negb_false_iff in Ht. rewrite Ht.
  destruct (identityIds s) as [|next rest]; [simpl; lia|].
  unfold bind, call, ret.
  destruct (brIdentity_setIdentityPassword E next _ (world st)) as [err w].
  simpl. destruct err; [rewrite Ht|]; simpl; lia.
Qed.

Definition password_reset_failed (req : Request) : Error :=
  BedrockError "The password reset failed for the given identity."
               (MODULE_NS +:+ ".PasswordResetFailed")
               {| public := Some true; httpStatusCode := Some 403;
                  sysIdentifier := body req !! "sysIdentifier";
                  details_identity := None |}
               None.

(** The handler of [POST /session/password/reset]. *)
Definition postPasswordReset : Handler := fun req =>
  (* either an identity slug or email address *)
  let identifier := body req !! "sysIdentifier" in
  r <- call (brIdentity_resolveIdentityIdentifier E identifier)
            (fun _ => EvResolveIdentityIdentifier identifier) ;;
  match r with
  | Err err => ret (CalledNext (Some err))
  | Ok ids =>
      (* try to set password for all identities until one is successful *)
      s <- Async.until reset_test (reset_fn req) reset_measure
                       (reset_fn_decreases req)
                       {| success := 0; identityIds := ids |} ;;
      if negb (success s =? 1)
      then ret (CalledNext (Some (password_reset_failed req)))
      else ret (Responded (Send 204))
  end.

Definition identity_not_found (req : Request) : Error :=
  BedrockError "The given email address is not registered."
               (MODULE_NS +:+ ".IdentityNotFound")
               {| public := Some true; httpStatusCode := Some 404;
                  sysIdentifier := body req !! "sysIdentifier";
                  details_identity := None |}
               None.

(** Passcode usage, from the query parameter. *)
Definition passcode_usage (req : Request) : string :=
  let usage := "reset" in
  if bool_decide (query req !! "usage" = Some "verify") then "verify"
  else if bool_decide (query req !! "usage" = Some "reset") then "reset"
  else usage.

(** The handler of [POST /session/passcode]. *)
Definition postPasscode : Handler := fun req =>
  let identifier := body req !! "sysIdentifier" in
  r <- call (brIdentity_resolveIdentityIdentifier E identifier)
            (fun _ => EvResolveIdentityIdentifier identifier) ;;
  match r with
  | Err err => ret (CalledNext (Some err))
  | Ok ids =>
      if (length ids =? 0)%nat
      then (* identity not found *)
        ret (CalledNext (Some (identity_not_found req)))
      else
        (* look up identities *)
        let hashes := map (db_hash E) ids in
        rs <- call (brIdentity_getIdentities E hashes)
                   (fun _ => EvGetIdentities hashes) ;;
        match rs with
        | Err err => ret (CalledNext (Some err))
        | Ok records =>
            (* send passcode for every identity match *)
            let idents := map record_identity records in
            let usage := passcode_usage req in
            e <- call (brIdentity_sendIdentityPasscodes E idents usage)
                      (fun _ => EvSendIdentityPasscodes idents usage) ;;
            match e with
            | Some err => ret (CalledNext (Some err))
            | None => ret (Responded (Send 204))
            end
        end
  end.

(** A GET handler of the route file, taken from the environment. *)
Definition view (path : string) : Handler := fun req st =>
  let (r, w) := view_handler E path req (world st) in
  (r, {| world := w; trace := trace st |}).

(** A route as registered with [app.get] or [app.post]. *)
Record Route := {
  method : string;
  path : string;
  handlers : list Handler
}.

(** [addRoutes(app)]: the routes in the order they are registered;
    [enableCreateIdentity] is the website flag. *)
Definition addRoutes (enableCreateIdentity : bool) : list Route :=
  (if enableCreateIdentity
   then [ {| method := "GET"; path := "/join";
             handlers := [view "/join"] |};
          {| method := "POST"; path := "/join";
             handlers := [validate (BodySchema "services.session.postJoin");
                          postJoin] |} ]
   else []) ++
  [ {| method := "GET"; path := "/session/login";
       handlers := [view "/session/login"] |};
    {| method := "POST"; path := "/session/login";
       handlers := [validate (BodySchema "services.session.postLogin");
                    postLogin] |};
    {| method := "GET"; path := "/session/logout";
       handlers := [view "/session/logout"] |};
    {| method := "POST"; path := "/session/password/reset";
       handlers :=
         [validate (BodySchema "services.session.postPasswordReset");
          postPasswordReset] |};
    {| method := "GET"; path := "/session/passcode";
       handlers :=
         [validate (QuerySchema "services.session.getPasscodeQuery");
          view "/session/passcode"] |};
    {| method := "POST"; path := "/session/passcode";
       handlers := [validate (BodySchema "services.session.postPasscode");
                    postPasscode] |} ].

(** How the framework runs the handlers of a route: in order, each one
    reached by the [next()] of the one before; [next(err)] or an answer
    ends the route. *)
Fixpoint dispatch (hs : list Handler) (req : Request) : M E HandlerResult :=
  match hs with
  | [] => ret (CalledNext None)
  | h :: rest =>
      r <- h req ;;
      match r with
      | CalledNext None => dispatch rest req
      | _ => ret r
      end
  end.
End Routes.
End Routes.

(** ** Session serialization, pages and the error handler *)




(** [{method: ..., url: ..., body: ...}] *)
Record QueuedRequest := {
  queued_method : string;
  queued_url : string;
  queued_body : gmap string string
}.

(** View variables: the fields this module writes ([vars.redirect],
    [vars.clientData.sysPasscode], [vars.clientData.queuedRequest]) and the
    rest. *)
Record Vars := {
  redirect : option bool;
  sysPasscode : option string;
  queuedRequest : option QueuedRequest;
  defaults : gmap string string
}.

(** A request with what the pages and the error handler read of it. *)
Record Http := {
  http_request : Request;
  http_method : string;         (* req.method *)
  accepts_html : bool;          (* req.accepts('html') *)
  xhr : bool;                   (* req.xhr *)
  is_urlencoded : bool;         (* req.is('application/x-www-form-urlencoded') *)
  protocol : string;            (* req.protocol *)
  host : option string;         (* req.get('Host') *)
  url : string;                 (* req.url *)
  has_session : bool            (* req.session *)
}.

(** What a page handler does with [res] and [next], in order. *)
Inductive Action :=
| DoNext (err : option Error)
| DoRender (view : string) (vars : Vars)
| DoRedirect (location : string).

(** Further collaborators: the view layer, the session store, node's [url]
    module, and [brIdentity.getIdentity(actor, id, ...)] called with the
    identity itself as actor. *)
Record Site (E : Env) := {
  getDefaultViewVars : Http -> World E -> Result Vars * World E;
  session_destroy : World E -> option Error * World E;
  url_pathname : string -> option string;
  getIdentity_as_self :
    option string -> World E -> Result (gmap string string) * World E
}.
Arguments getDefaultViewVars {E} s.
Arguments session_destroy {E} s.
Arguments url_pathname {E} s.
Arguments getIdentity_as_self {E} s.

(** A call of one of these collaborators; it is not logged. *)
Definition quiet {E : Env} {A : Type} (f : World E -> A * World E) : M E A :=
  fun st =>
    let (a, w) := f (world st) in
    (a, {| world := w; trace := trace st |}).

(** JavaScript string concatenation with a value that may be undefined. *)
Definition js_string (o : option string) : string :=
  match o with
  | Some s => s
  | None => "undefined"
  end.



Section Site.
Context {E : Env} (site : Site E).



Definition set_redirect (vars : Vars) (b : bool) : Vars :=
  {| redirect := Some b; sysPasscode := sysPasscode vars;
     queuedRequest := queuedRequest vars; defaults := defaults vars |}.

Definition set_sysPasscode (vars : Vars) (p : string) : Vars :=
  {| redirect := redirect vars; sysPasscode := Some p;
     queuedRequest := queuedRequest vars; defaults := defaults vars |}.

Definition set_queuedRequest (vars : Vars) (q : QueuedRequest) : Vars :=
  {| redirect := redirect vars; sysPasscode := sysPasscode vars;
     queuedRequest := Some q; defaults := defaults vars |}.

(** The handler of [GET /join]. *)
Definition getJoin (req : Http) : M E (list Action) :=
  r <- quiet (getDefaultViewVars site req) ;;
  ret (match r with
       | Err err => [DoNext (Some err)]
       | Ok vars => [DoRender "create.html" (set_redirect vars false)]
       end).

(** The handler of [GET /session/logout]. When destroying the session
    fails, [next(err)] is called and the redirect is sent all the same. *)
Definition getLogout (req : Http) : M E (list Action) :=
  if has_session req
  then
    e <- quiet (session_destroy site) ;;
    ret (match e with
         | Some err => [DoNext (Some err); DoRedirect "/"]
         | None => [DoRedirect "/"]
         end)
  else ret [DoRedirect "/"].

(** The handler of [GET /session/passcode]. *)
Definition getPasscode (req : Http) : M E (list Action) :=
  r <- quiet (getDefaultViewVars site req) ;;
  ret (match r with
       | Err err => [DoNext (Some err)]
       | Ok vars =>
           let vars := set_redirect vars false in
           let vars :=
             match query (http_request req) !! "passcode" with
             | Some p => set_sysPasscode vars p
             | None => vars
             end in
           [DoRender "passcode.html" vars]
       end).

(** The error handler of the route file: handle permission denied by
    sending login page. *)
Definition sendLoginPage (err : Error) (req : Http) : M E (list Action) :=
  if negb (bool_decide
             (error_name err = Some "bedrock.website.PermissionDenied"))
  then ret [DoNext (Some err)]
  else
  (* don't send login page if user agent doesn't accept html or if it's an
     XHR request *)
  if negb (accepts_html req && negb (xhr req))
  then ret [DoNext (Some err)]
  else
  (* don't send login page if the method isn't GET or a POST using
     content type 'application/x-www-form-urlencoded' *)
  if negb (String.eqb (http_method req) "GET" ||
           (String.eqb (http_method req) "POST" && is_urlencoded req))
  then ret [DoNext (Some err)]
  else
    (* not authenticated, send login page *)
    r <- quiet (getDefaultViewVars site req) ;;
    ret (match r with
         | Err err' => [DoNext (Some err')]
         | Ok vars =>
             (* queue current request if not to /session/login *)
             let vars :=
               if negb (bool_decide (url_pathname site (url req)
                                     = Some "/session/login"))
               then set_queuedRequest vars
                      {| queued_method := http_method req;
                         queued_url := protocol req +:+ "://" +:+
                                       js_string (host req) +:+ url req;
                         queued_body := body (http_request req) |}
               else vars in
             [DoRender "main.html" vars]
         end).
End Site.

(** * Notions used in the statements *)

Section Notions.
Context {E : Env}.

(** The results of the two parallel checks of [api.checkAuthentication],
    each taken on its own. *)
Definition session_check (req : Request) (st : State E) : Result Value :=
  fst (Async.task_fn (PassportLib.session req) ∅ st).

Definition httpSignature_check (req : Request) (st : State E)
    : Result Value :=
  fst (Async.task_fn (PassportLib.httpSignature req) ∅ st).

(** The value the session check yields. *)
Definition session_value (req : Request) : Value :=
  if isAuthenticated req then user req else VFalse.

(** The two checks disagree: both yield a user and the identity IDs
    differ. *)
Definition disagree (s h : Result Value) : Prop :=
  exists su hu, s = Ok (VUser su) /\ h = Ok (VUser hu) /\
                identity su !! "id" ≠ identity hu !! "id".

(** What [api.checkAuthentication] calls back with, from the results of the
    two checks. *)
Definition reconcile (s : Value) (h : Result Value)
    : option (Result Value) :=
  match h with
  | Err e => Some (Err (PassportLib.authentication_error e))
  | Ok hv =>
      match s, hv with
      | VUser su, VUser hu =>
          if bool_decide (identity su !! "id" ≠ identity hu !! "id")
          then Some (Err (PassportLib.authentication_error
                            PassportLib.mismatch))
          else Some (Ok s)
      | VUser _, _ => Some (Ok s)
      | _, VUser _ => Some (Ok hv)
      | _, _ => Some (Ok VFalse)
      end
  end.

(** The event of one attempt of the password-reset loop. *)
Definition attempt (req : Request) (id : string) (ok : bool) : Event :=
  EvSetIdentityPassword id (<["id" := id]> (body req)) ok.

(** The loop of [POST /session/password/reset], started on the resolved
    identity IDs with [success = 0]. *)
Definition reset_loop (req : Request) (ids : list string) (st : State E)
    : Routes.ResetLoop * State E :=
  Async.until Routes.reset_test (Routes.reset_fn req) Routes.reset_measure
              (Routes.reset_fn_decreases req)
              {| Routes.success := 0; Routes.identityIds := ids |} st.

(** [all_fail req ids w w']: [brIdentity.setIdentityPassword], called as
    the loop calls it (acting as the identity, on the request body with
    [id] set to it) for the identities [ids] in order from the world [w],
    fails every time and leaves the world [w']. *)
Fixpoint all_fail (req : Request) (ids : list string) (w w' : World E)
    : Prop :=
  match ids with
  | [] => w' = w
  | id :: rest =>
      exists err w1,
        brIdentity_setIdentityPassword E id (<["id" := id]> (body req)) w
          = (Some err, w1)
        /\ all_fail req rest w1 w'
  end.

(** The answers of [brIdentity.getIdentity(null, id, ...)] to the lookups
    of [ids], made in order from the world [w], and the world they leave. *)
Fixpoint lookups (ids : list string) (w : World E)
    : list (string * Result (gmap string string)) * World E :=
  match ids with
  | [] => ([], w)
  | id :: rest =>
      let (r, w1) := brIdentity_getIdentity E id w in
      let (rs, w') := lookups rest w1 in
      ((id, r) :: rs, w')
  end.

(** The first error among such answers. *)
Fixpoint first_error (rs : list (string * Result (gmap string string)))
    : option Error :=
  match rs with
  | [] => None
  | (_, Err e) :: _ => Some e
  | (_, Ok _) :: rest => first_error rest
  end.

(** The identities found, by ID, added to [m]; a later answer for an ID
    replaces an earlier one. *)
Fixpoint found (rs : list (string * Result (gmap string string)))
    (m : gmap string (gmap string string))
    : gmap string (gmap string string) :=
  match rs with
  | [] => m
  | (id, Ok ident) :: rest => found rest (<[id := ident]> m)
  | (_, Err _) :: rest => found rest m
  end.

(** [ident] is the identity document of a join request: [id] made from
    [sysSlug], [@context] the configured URL, [sysSlug], [label], [email]
    and [sysPassword] those of the body, and nothing else. *)
Definition is_identity_document (req : Request) (ident : gmap string string)
    : Prop :=
  ident !! "id" = Some (brIdentity_createIdentityId E (body req !! "sysSlug"))
  /\ ident !! "@context" = Some (CONTEXT_URL E)
  /\ (forall k, In k ["sysSlug"; "label"; "email"; "sysPassword"] ->
                ident !! k = body req !! k)
  /\ (forall k, ident !! k <> None ->
                In k ["@context"; "id"; "sysSlug"; "label"; "email";
                      "sysPassword"]).

(** [req'] is the request with which [POST /join] logs in after [created]
    was created: the request with [sysIdentifier] set to the ID of the
    created identity and [password] set to [sysPassword]. *)
Definition is_join_login (req : Request) (created : gmap string string)
    (req' : Request) : Prop :=
  user req' = user req
  /\ query req' = query req
  /\ body req' !! "sysIdentifier" = created !! "id"
  /\ body req' !! "password" = body req !! "sysPassword"
  /\ (forall k, k <> "sysIdentifier" -> k <> "password" ->
                body req' !! k = body req !! k).

(** How [_login] delivers what [api.login] delivers: an error that
    [api.login] gives to [callback] alone goes to [next]. *)
Definition through_next (o : LoginOutcome) : LoginOutcome :=
  match o with
  | Callback (Some e) VUndefined None => LoginNext (Some e)
  | _ => o
  end.
End Notions.

(** ** Sample environments and requests *)

(** A world without state in which every collaborator answers as given. *)
Definition sample_env (strategy : string -> AuthenticateOutcome)
    (resolved : Result (list string)) (setPassword : string -> option Error)
    (found : Result (list IdentityRecord)) (sent : option Error) : Env :=
  {| World := unit;
     httpSignature_enabled := fun _ => true;
     CONTEXT_URL := "https://w3id.org/identity/v1";
     passport_authenticate := fun name _ w => (strategy name, w);
     req_logIn := fun _ _ w => (None, w);
     validate_request := fun _ r =>
       match body r !! "sysIdentifier" with
       | Some _ => None
       | None => Some (ExternalError "ValidationError")
       end;
     brIdentity_resolveIdentityIdentifier := fun _ w => (resolved, w);
     brIdentity_setIdentityPassword := fun actor _ w => (setPassword actor, w);
     brIdentity_getIdentities := fun _ w => (found, w);
     brIdentity_sendIdentityPasscodes := fun _ _ w => (sent, w);
     brIdentity_getIdentity := fun id w => (Ok {[ "id" := id ]}, w);
     brIdentity_createIdentityId := fun _ => "https://example.com/i/new";
     brIdentity_createIdentity := fun ident w =>
       (Ok {| record_identity := ident |}, w);
     db_hash := fun s => s;
     db_isDuplicateError := fun _ => false;
     view_handler := fun _ _ w => (Responded (View "main.html"), w) |}.

Definition start (E : Env) (w : World E) : State E :=
  {| world := w; trace := [] |}.

Definition alice : User := {| identity := {[ "id" := "alice" ]} |}.
Definition bob : User := {| identity := {[ "id" := "bob" ]} |}.

Definition request (u : Value) (fields : list (string * string)) : Request :=
  {| user := u; body := list_to_map fields; query := ∅ |}.

(** The signature strategy authenticates [bob]; the password strategy
    rejects the credentials. *)
Definition env_signed_bob : Env :=
  sample_env (fun name =>
                if String.eqb name "bedrock.httpSignature"
                then CustomCallback None (VUser bob) None
                else CustomCallback None VFalse
                       (Some {| matches := None; email := None |}))
             (Ok []) (fun _ => None) (Ok []) None.

(** The signature strategy fails with an error. *)
Definition env_signature_error : Env :=
  sample_env (fun _ => CustomCallback (Some (ExternalError "signature"))
                                      VUndefined None)
             (Ok []) (fun _ => None) (Ok []) None.

(** No signature is present. *)
Definition env_unsigned : Env :=
  sample_env (fun _ => CustomCallback None VFalse None)
             (Ok []) (fun _ => None) (Ok []) None.

(** The identifier resolves to alice, bob and carol; only bob's password can
    be set. *)
Definition env_reset_bob : Env :=
  sample_env (fun _ => CustomCallback None VFalse None)
             (Ok ["alice"; "bob"; "carol"])
             (fun actor => if String.eqb actor "bob" then None
                           else Some (ExternalError "passcode"))
             (Ok []) None.

(** The identifier resolves to alice; the identity lookup fails. *)
Definition env_lookup_error : Env :=
  sample_env (fun _ => CustomCallback None VFalse None)
             (Ok ["alice"]) (fun _ => None)
             (Err (ExternalError "database")) None.

(** The identifier resolves to alice, whose record is found. *)
Definition env_lookup_alice : Env :=
  sample_env (fun _ => CustomCallback None VFalse None)
             (Ok ["alice"]) (fun _ => None)
             (Ok [ {| record_identity := identity alice |} ]) None.

(** The same collaborators with HTTP-signature authentication disabled in
    the configuration. *)
Definition disable_httpSignature (E : Env) : Env :=
  {| World := World E;
     httpSignature_enabled := fun _ => false;
     CONTEXT_URL := CONTEXT_URL E;
     passport_authenticate := passport_authenticate E;
     req_logIn := req_logIn E;
     validate_request := validate_request E;
     brIdentity_resolveIdentityIdentifier :=
       brIdentity_resolveIdentityIdentifier E;
     brIdentity_setIdentityPassword := brIdentity_setIdentityPassword E;
     brIdentity_getIdentities := brIdentity_getIdentities E;
     brIdentity_sendIdentityPasscodes := brIdentity_sendIdentityPasscodes E;
     brIdentity_getIdentity := brIdentity_getIdentity E;
     brIdentity_createIdentityId := brIdentity_createIdentityId E;
     brIdentity_createIdentity := brIdentity_createIdentity E;
     db_hash := db_hash E;
     db_isDuplicateError := db_isDuplicateError E;
     view_handler := view_handler E |}.

(** The password strategy authenticates alice. *)
Definition env_password_alice : Env :=
  sample_env (fun _ => CustomCallback None (VUser alice) None)
             (Ok []) (fun _ => None) (Ok []) None.

(** The password strategy finds that the credentials match alice and bob. *)
Definition env_password_matches : Env :=
  sample_env (fun _ => CustomCallback None VFalse
                         (Some {| matches := Some ["alice"; "bob"];
                                  email := Some "ab@example.com" |}))
             (Ok []) (fun _ => None) (Ok []) None.

Definition no_vars : Vars :=
  {| redirect := None; sysPasscode := None; queuedRequest := None;
     defaults := ∅ |}.

(** A site whose identity module knows alice. *)
Definition sample_site (E : Env) : Site E :=
  {| getDefaultViewVars := fun _ w => (Ok no_vars, w);
     session_destroy := fun w => (Some (ExternalError "store"), w);
     url_pathname := fun u => Some u;
     getIdentity_as_self := fun id w =>
       (match id with
        | Some "alice" => Ok (identity alice)
        | _ => Err (ExternalError "NotFound")
        end, w) |}.

(** A browser asking for a page with [GET]. *)
Definition browser_get (u : string) : Http :=
  {| http_request := request VFalse [];
     http_method := "GET"; accepts_html := true; xhr := false;
     is_urlencoded := false; protocol := "https";
     host := Some "example.com"; url := u; has_session := true |}.

(** A script posting JSON. *)
Definition xhr_post (u : string) : Http :=
  {| http_request := request VFalse [];
     http_method := "POST"; accepts_html := true; xhr := true;
     is_urlencoded := false; protocol := "https";
     host := Some "example.com"; url := u; has_session := false |}.

(** A join request for the slug alice, the identity document made for it
    and the request that logs the new identity in. *)
Definition join_request : Request :=
  request VFalse [("sysSlug", "alice"); ("sysPassword", "secret")].

Definition join_document : gmap string string :=
  <["sysPassword" := "secret"]>
    (<["sysSlug" := "alice"]>
       (<["id" := "https://example.com/i/new"]>
          (<["@context" := "https://w3id.org/identity/v1"]> ∅))).

Definition join_login_request : Request :=
  set_body join_request
    (<["password" := "secret"]>
       (<["sysIdentifier" := "https://example.com/i/new"]>
          (body join_request))).

(** * Properties *)

(** ** The task graph of [api.checkAuthentication] *)

Section AuthGraph.
Context {E : Env}.
Import PassportLib.

Lemma pick_one (k : nat) (a : Async.Task (E:=E)) : Async.pick k [a] = Some a.
Proof. unfold Async.pick. simpl length. rewrite Nat.mod_1_r. reflexivity. Qed.

Lemma pick_two (k : nat) (a b : Async.Task (E:=E)) :
  Async.pick k [a; b] = Some a \/ Async.pick k [a; b] = Some b.
Proof.
  unfold Async.pick. simpl length.
  assert (H : (k mod 2 < 2)%nat) by (apply Nat.mod_upper_bound; lia).
  destruct (k mod 2)%nat as [|[|n]]; [left|right|lia]; reflexivity.
Qed.

Lemma auto_loop_step n sched (t : Async.Task (E:=E)) ts results st tk :
  Async.pick (hd O sched) (List.filter (Async.ready results) (t :: ts))
    = Some tk ->
  Async.auto_loop (S n) sched (t :: ts) results st =
  let (r, st') := Async.task_fn tk results st in
  match r with
  | Err e => (Some (Err e), st')
  | Ok v => Async.auto_loop n (tl sched) (Async.others tk (t :: ts))
              (<[Async.task_name tk := v]> results) st'
  end.
Proof.
  intros H. cbn [Async.auto_loop]. rewrite H. unfold bind.
  destruct (Async.task_fn tk results st) as [[v|e] st']; reflexivity.
Qed.

Lemma ready_none req :
  List.filter (Async.ready ∅) [session (E:=E) req; httpSignature req; auth]
  = [session req; httpSignature req].
Proof. reflexivity. Qed.

Lemma ready_after_session req v :
  List.filter (Async.ready (<["session":=v]> ∅))
              [httpSignature (E:=E) req; auth]
  = [httpSignature req].
Proof. reflexivity. Qed.

Lemma ready_after_httpSignature req v :
  List.filter (Async.ready (<["httpSignature":=v]> ∅))
              [session (E:=E) req; auth]
  = [session req].
Proof. reflexivity. Qed.

Lemma ready_after_both s h :
  List.filter (Async.ready (<["httpSignature":=h]> (<["session":=s]> ∅)))
              [auth (E:=E)]
  = [auth].
Proof. reflexivity. Qed.

Lemma results_commute s h :
  <["session":=s]> (<["httpSignature":=h]> (∅ : gmap string Value)) =
  <["httpSignature":=h]> (<["session":=s]> ∅).
Proof. apply insert_insert_ne. done. Qed.

Lemma session_fn req results (st : State E) :
  Async.task_fn (session req) results st = (Ok (session_value req), st).
Proof. reflexivity. Qed.

Lemma httpSignature_fn_results req results results' (st : State E) :
  Async.task_fn (httpSignature req) results st =
  Async.task_fn (httpSignature req) results' st.
Proof. reflexivity. Qed.

Lemma auth_pure results (st : State E) :
  snd (Async.task_fn auth results st) = st.
Proof. reflexivity. Qed.

Lemma auth_reconcile s h a (st : State E) :
  Async.task_fn auth (<["httpSignature":=h]> (<["session":=s]> ∅)) st
    = (a, st) ->
  match a with
  | Err e => Some (Err (authentication_error e))
  | Ok v =>
      Some (Ok (prop (<["auth":=v]>
                        (<["httpSignature":=h]> (<["session":=s]> ∅)))
                     "auth"))
  end = reconcile s (Ok h).
Proof.
  cbn [Async.task_fn auth]. unfold ret.
  change (prop (<["httpSignature":=h]> (<["session":=s]> ∅)) "session")
    with s.
  change (prop (<["httpSignature":=h]> (<["session":=s]> ∅)) "httpSignature")
    with h.
  intros H. injection H as <-.
  unfold reconcile.
  destruct s as [| |su], h as [| |hu]; try reflexivity.
  case_bool_decide; reflexivity.
Qed.

Lemma auto_tail s h sched (st : State E) :
  (let (a, st') := Async.auto_loop 1 sched [auth]
                     (<["httpSignature":=h]> (<["session":=s]> ∅)) st in
   (match a with
    | Some (Ok results) => Some (Ok (prop results "auth"))
    | Some (Err err) => Some (Err (authentication_error err))
    | None => None
    end, st')) = (reconcile s (Ok h), st).
Proof.
  rewrite (auto_loop_step _ _ _ _ _ _ auth)
    by (rewrite ready_after_both; apply pick_one).
  destruct (Async.task_fn auth _ st) as [a st'] eqn:Ha.
  pose proof (auth_pure (<["httpSignature":=h]> (<["session":=s]> ∅)) st)
    as Hp.
  rewrite Ha in Hp. simpl in Hp. subst st'.
  apply auth_reconcile in Ha. rewrite <- Ha.
  destruct a; reflexivity.
Qed.

(** Whatever the order in which the two checks complete, the callback gets
    [reconcile] of their results, and the state is the one the signature
    check leaves. *)
Lemma checkAuthentication_spec sched req (st : State E) :
  checkAuthentication sched req st =
  let (h, st') := Async.task_fn (httpSignature req) ∅ st in
  (reconcile (session_value req) h, st').
Proof.
  unfold checkAuthentication, Async.auto, bind, ret. simpl length.
  destruct (pick_two (hd O sched) (session req) (httpSignature req))
    as [Hp | Hp].
  - rewrite (auto_loop_step _ _ _ _ _ _ (session req))
      by (rewrite ready_none; exact Hp).
    rewrite session_fn.
    change (Async.others (session req) [session req; httpSignature req; auth])
      with [httpSignature (E:=E) req; auth].
    rewrite (auto_loop_step _ _ _ _ _ _ (httpSignature req))
      by (change (Async.task_name (session req)) with "session";
          rewrite ready_after_session; apply pick_one).
    rewrite (httpSignature_fn_results req _ ∅).
    destruct (Async.task_fn (httpSignature req) ∅ st) as [[h|e] st'] eqn:Hh;
      [|reflexivity].
    change (Async.others (httpSignature req) [httpSignature req; auth])
      with [auth (E:=E)].
    apply auto_tail.
  - rewrite (auto_loop_step _ _ _ _ _ _ (httpSignature req))
      by (rewrite ready_none; exact Hp).
    destruct (Async.task_fn (httpSignature req) ∅ st) as [[h|e] st'] eqn:Hh;
      [|reflexivity].
    change (Async.others (httpSignature req)
              [session req; httpSignature req; auth])
      with [session (E:=E) req; auth].
    rewrite (auto_loop_step _ _ _ _ _ _ (session req))
      by (change (Async.task_name (httpSignature req)) with "httpSignature";
          rewrite ready_after_httpSignature; apply pick_one).
    rewrite session_fn.
    change (Async.others (session req) [session req; auth])
      with [auth (E:=E)].
    change (Async.task_name (httpSignature req)) with "httpSignature".
    change (Async.task_name (session req)) with "session".
    rewrite results_commute.
    apply auto_tail.
Qed.

Lemma checkAuthentication_result sched req (st : State E) :
  fst (checkAuthentication sched req st) =
  reconcile (session_value req) (httpSignature_check req st).
Proof.
  rewrite checkAuthentication_spec. unfold httpSignature_check.
  destruct (Async.task_fn (httpSignature req) ∅ st); reflexivity.
Qed.

Lemma session_check_value req (st : State E) :
  session_check req st = Ok (session_value req).
Proof. reflexivity. Qed.
End AuthGraph.

(** ** [api.checkAuthentication] and the middleware built on it *)

Section Authentication.
Context {E : Env}.
Import PassportLib.

(** C1. When the session check and the HTTP-signature check both yield a
    user and the identity IDs of the two users differ, [checkAuthentication]
    calls back with the error 'Request authentication error.' named
    'bedrock.website.PermissionDenied' with httpStatusCode 400, whose cause is
    the mismatch error of the same name and status; it does not call back
    with a value. This holds for every order of completion of the checks. *)
Theorem checkAuthentication_rejects_mismatch
    sched req (st : State E) su hu :
  session_check req st = Ok (VUser su) ->
  httpSignature_check req st = Ok (VUser hu) ->
  identity su !! "id" ≠ identity hu !! "id" ->
  fst (checkAuthentication sched req st) =
    Some (Err (BedrockError "Request authentication error."
                 "bedrock.website.PermissionDenied"
                 {| public := Some true; httpStatusCode := Some 400;
                    sysIdentifier := None; details_identity := None |}
                 (Some (BedrockError "Request authentication mismatch."
                          "bedrock.website.PermissionDenied"
                          {| public := Some true; httpStatusCode := Some 400;
                             sysIdentifier := None;
                             details_identity := None |}
                          None))))
  /\ forall v, fst (checkAuthentication sched req st) <> Some (Ok v).
Proof.
  intros Hs Hh Hne.
  rewrite checkAuthentication_result.
  rewrite session_check_value in Hs. injection Hs as Hs.
  rewrite Hs, Hh. unfold reconcile.
  rewrite bool_decide_true by exact Hne.
  split; [reflexivity | discriminate].
Qed.

(** C2, as amended. When the HTTP-signature check completes without an
    error and the two checks do not disagree on identity,
    [checkAuthentication] calls back with the session user if the session
    check yields one, otherwise with the HTTP-signature user if that check
    yields one, and otherwise with [false]. *)
Theorem checkAuthentication_agreement sched req (st : State E) sv hv :
  session_check req st = Ok sv ->
  httpSignature_check req st = Ok hv ->
  ~ disagree (Ok sv) (Ok hv) ->
  fst (checkAuthentication sched req st) =
    Some (Ok match sv, hv with
             | VUser u, _ => VUser u
             | _, VUser u => VUser u
             | _, _ => VFalse
             end).
Proof.
  intros Hs Hh Hagree.
  rewrite checkAuthentication_result.
  rewrite session_check_value in Hs. injection Hs as Hs.
  rewrite Hs, Hh. unfold reconcile.
  destruct sv as [| |su], hv as [| |hu]; try reflexivity.
  case_bool_decide as Hne; [|reflexivity].
  exfalso. apply Hagree. exists su, hu. auto.
Qed.

(** C8. The value [checkAuthentication] calls back with is determined by the
    results of the two checks: two runs in which the session check gives the
    same result and the HTTP-signature check gives the same result call back
    with the same value, whatever the order of completion in either run and
    whatever else differs between the two states. *)
Theorem checkAuthentication_deterministic
    sched1 sched2 req (st1 st2 : State E) :
  session_check req st1 = session_check req st2 ->
  httpSignature_check req st1 = httpSignature_check req st2 ->
  fst (checkAuthentication sched1 req st1) =
  fst (checkAuthentication sched2 req st2).
Proof.
  intros _ Hh. rewrite !checkAuthentication_result, Hh. reflexivity.
Qed.

Lemma reconcile_falsy req h v :
  reconcile (session_value req) h = Some (Ok v) ->
  truthy v = false -> truthy (user req) = false.
Proof.
  unfold session_value, isAuthenticated.
  destruct (truthy (user req)) eqn:Hu; [|reflexivity].
  destruct (user req) as [| |u]; try discriminate.
  destruct h as [[| |hu]|e]; simpl; try case_bool_decide;
    intros Hr; try discriminate; injection Hr as <-; intros Hv;
    discriminate.
Qed.

(** C6. [ensureAuthenticated] calls [next()] without an error exactly when
    [checkAuthentication] calls back with a user, and [req.user] is then
    that user; when [checkAuthentication] calls back without an error and
    without a user, [ensureAuthenticated] calls [next] with the error
    'Not authenticated.' named 'bedrock.website.PermissionDenied' with
    httpStatusCode 400. *)
Theorem ensureAuthenticated_iff sched req (st : State E) :
  (snd (fst (ensureAuthenticated sched req st)) = Next None <->
   exists u, fst (checkAuthentication sched req st) = Some (Ok (VUser u)))
  /\ (forall u,
        fst (checkAuthentication sched req st) = Some (Ok (VUser u)) ->
        user (fst (fst (ensureAuthenticated sched req st))) = VUser u)
  /\ (forall v,
        fst (checkAuthentication sched req st) = Some (Ok v) ->
        truthy v = false ->
        snd (fst (ensureAuthenticated sched req st)) =
          Next (Some (BedrockError "Not authenticated."
                        "bedrock.website.PermissionDenied"
                        {| public := Some true; httpStatusCode := Some 400;
                           sysIdentifier := None;
                           details_identity := None |}
                        None))).
Proof.
  pose proof (checkAuthentication_result sched req st) as Hr.
  unfold ensureAuthenticated, optionallyAuthenticated, bind, ret.
  destruct (checkAuthentication sched req st) as [[[v|e]|] st'];
    simpl in Hr; simpl.
  - destruct (truthy v) eqn:Hv; simpl.
    + destruct v as [| |u]; try discriminate. simpl.
      split; [|split].
      * split; eauto.
      * intros u' Hu. congruence.
      * intros v' Hv' Hf. injection Hv' as <-. discriminate.
    + symmetry in Hr.
      rewrite (reconcile_falsy _ _ _ Hr Hv). simpl.
      split; [|split].
      * split; [discriminate|].
        intros [u Hu]. injection Hu as ->. discriminate.
      * intros u Hu. injection Hu as ->. discriminate.
      * reflexivity.
  - split; [|split]; try discriminate.
    split; [discriminate|]. intros [u Hu]. discriminate.
  - split; [|split]; try discriminate.
    split; [discriminate|]. intros [u Hu]. discriminate.
Qed.

(** C10. When [checkAuthentication] calls back with [false] and no error,
    [optionallyAuthenticated] leaves the request, and so [req.user], as it
    was and calls [next()] without an error; [req.user] is changed only when
    [checkAuthentication] calls back with a user. *)
Theorem optionallyAuthenticated_frame sched req (st : State E) :
  (fst (checkAuthentication sched req st) = Some (Ok VFalse) ->
   fst (optionallyAuthenticated sched req st) = (req, Next None))
  /\ (user (fst (fst (optionallyAuthenticated sched req st))) <> user req ->
      exists u, fst (checkAuthentication sched req st) = Some (Ok (VUser u))).
Proof.
  unfold optionallyAuthenticated, bind, ret.
  destruct (checkAuthentication sched req st) as [[[v|e]|] st']; simpl.
  - split.
    + intros H. injection H as ->. reflexivity.
    + destruct v as [| |u]; simpl; intros H; try congruence. eauto.
  - split; [discriminate | congruence].
  - split; [discriminate | congruence].
Qed.
End Authentication.

(** C1 at a request with a session for alice and a signature of bob. *)
Lemma checkAuthentication_rejects_mismatch_witness :
  fst (PassportLib.checkAuthentication (E:=env_signed_bob) [1%nat]
         (request (VUser alice) []) (start env_signed_bob tt)) =
    Some (Err (BedrockError "Request authentication error."
                 "bedrock.website.PermissionDenied"
                 {| public := Some true; httpStatusCode := Some 400;
                    sysIdentifier := None; details_identity := None |}
                 (Some (BedrockError "Request authentication mismatch."
                          "bedrock.website.PermissionDenied"
                          {| public := Some true; httpStatusCode := Some 400;
                             sysIdentifier := None;
                             details_identity := None |}
                          None))))
  /\ forall v,
       fst (PassportLib.checkAuthentication (E:=env_signed_bob) [1%nat]
              (request (VUser alice) []) (start env_signed_bob tt))
       <> Some (Ok v).
Proof.
  apply (checkAuthentication_rejects_mismatch (E:=env_signed_bob)
           [1%nat] (request (VUser alice) []) (start env_signed_bob tt)
           alice bob).
  - reflexivity.
  - reflexivity.
  - vm_compute. discriminate.
Defined.

(** The claim C2 as stated fails when the HTTP-signature check ends with an
    error: the checks do not disagree, the session check yields alice, and
    the callback gets the authentication error, not alice. *)
Lemma checkAuthentication_signature_error_counterexample :
  ~ disagree
      (session_check (E:=env_signature_error) (request (VUser alice) [])
         (start env_signature_error tt))
      (httpSignature_check (E:=env_signature_error)
         (request (VUser alice) []) (start env_signature_error tt))
  /\ session_check (E:=env_signature_error) (request (VUser alice) [])
       (start env_signature_error tt) = Ok (VUser alice)
  /\ fst (PassportLib.checkAuthentication (E:=env_signature_error) []
            (request (VUser alice) []) (start env_signature_error tt)) =
       Some (Err (BedrockError "Request authentication error."
                    "bedrock.website.PermissionDenied"
                    {| public := Some true; httpStatusCode := Some 400;
                       sysIdentifier := None; details_identity := None |}
                    (Some (ExternalError "signature"))))
  /\ fst (PassportLib.checkAuthentication (E:=env_signature_error) []
            (request (VUser alice) []) (start env_signature_error tt)) <>
       Some (Ok (VUser alice)).
Proof.
  split; [|split; [reflexivity | split; [reflexivity | discriminate]]].
  intros (su & hu & _ & Hh & _). vm_compute in Hh. discriminate.
Qed.

(** C2 as amended, at a request with a session for alice and no
    signature. *)
Lemma checkAuthentication_agreement_witness :
  fst (PassportLib.checkAuthentication (E:=env_unsigned) [1%nat]
         (request (VUser alice) []) (start env_unsigned tt)) =
    Some (Ok (VUser alice)).
Proof.
  apply (checkAuthentication_agreement (E:=env_unsigned) [1%nat]
           (request (VUser alice) []) (start env_unsigned tt)
           (VUser alice) VFalse).
  - reflexivity.
  - reflexivity.
  - intros (su & hu & _ & Hh & _). discriminate.
Defined.

(** C8 at two runs that differ in the schedule and in the trace so far. *)
Lemma checkAuthentication_deterministic_witness :
  fst (PassportLib.checkAuthentication (E:=env_signed_bob) [0%nat]
         (request (VUser alice) []) (start env_signed_bob tt)) =
  fst (PassportLib.checkAuthentication (E:=env_signed_bob) [1%nat]
         (request (VUser alice) [])
         {| world := tt : World env_signed_bob;
            trace := [EvGetIdentity "alice"] |}).
Proof.
  apply (checkAuthentication_deterministic (E:=env_signed_bob)); reflexivity.
Defined.

(** C6 at a request without session and without signature. *)
Lemma ensureAuthenticated_iff_witness :
  snd (fst (PassportLib.ensureAuthenticated (E:=env_unsigned) []
              (request VUndefined []) (start env_unsigned tt))) =
    Next (Some (BedrockError "Not authenticated."
                  "bedrock.website.PermissionDenied"
                  {| public := Some true; httpStatusCode := Some 400;
                     sysIdentifier := None; details_identity := None |}
                  None)).
Proof.
  apply (proj2 (proj2 (ensureAuthenticated_iff (E:=env_unsigned) []
                         (request VUndefined []) (start env_unsigned tt)))
           VFalse); reflexivity.
Defined.

(** C10 at a request without session and without signature. *)
Lemma optionallyAuthenticated_frame_witness :
  fst (PassportLib.optionallyAuthenticated (E:=env_unsigned) []
         (request VUndefined []) (start env_unsigned tt)) =
    (request VUndefined [], Next None).
Proof.
  apply (proj1 (optionallyAuthenticated_frame (E:=env_unsigned) []
                  (request VUndefined []) (start env_unsigned tt)));
    reflexivity.
Defined.

(** ** The password-reset loop *)

Section Until.
Context {E : Env} {S : Type}.
Variables (test : S -> bool) (fn : S -> M E S) (measure : S -> nat).
Hypothesis fn_decreases :
  forall s st, test s = false -> (measure (fst (fn s st)) < measure s)%nat.

Lemma until_unfold s st :
  Async.until test fn measure fn_decreases s st =
  if test s then (s, st)
  else Async.until test fn measure fn_decreases
         (fst (fn s st)) (snd (fn s st)).
Proof.
  funelim (Async.until test fn measure fn_decreases s st).
  - rewrite e. reflexivity.
  - rewrite H. reflexivity.
Qed.
End Until.

Section PasswordReset.
Context {E : Env}.
Import Routes.

Lemma reset_loop_nil req (st : State E) :
  reset_loop req [] st = ({| success := -1; identityIds := [] |}, st).
Proof.
  unfold reset_loop. rewrite until_unfold. simpl.
  rewrite until_unfold. reflexivity.
Qed.

Lemma reset_loop_cons req id rest (st : State E) :
  reset_loop req (id :: rest) st =
  let (err, w) :=
    brIdentity_setIdentityPassword E id (<["id" := id]> (body req))
                                   (world st) in
  let st' := {| world := w;
                trace := (trace st ++
                          [attempt req id (bool_decide (err = None))])%list |} in
  match err with
  | None => ({| success := 1; identityIds := rest |}, st')
  | Some _ => reset_loop req rest st'
  end.
Proof.
  unfold reset_loop. rewrite until_unfold.
  cbn [reset_test success negb Z.eqb].
  unfold reset_fn at 2 3. cbn [identityIds success].
  unfold bind, call, ret, attempt.
  destruct (brIdentity_setIdentityPassword E id _ (world st)) as [[e|] w];
    cbn [fst snd].
  - reflexivity.
  - rewrite until_unfold. reflexivity.
Qed.

(** When every call fails, the loop tries all identities and gives up. *)
Lemma reset_loop_all_fail req ids (st : State E) w' :
  all_fail req ids (world st) w' ->
  reset_loop req ids st =
    ({| success := -1; identityIds := [] |},
     {| world := w';
        trace := (trace st ++ map (fun i => attempt req i false) ids)%list |}).
Proof.
  revert st. induction ids as [|id ids IH]; intros st Hf.
  - cbn in Hf. subst w'. rewrite reset_loop_nil. cbn. rewrite app_nil_r.
    destruct st; reflexivity.
  - destruct Hf as (err & w1 & Hset & Hf).
    rewrite reset_loop_cons, Hset. cbv zeta.
    match goal with |- context [reset_loop req ids ?s] =>
      rewrite (IH s Hf)
    end.
    cbn [trace map]. rewrite <- app_assoc. reflexivity.
Qed.

(** When the calls fail up to one that succeeds, the loop stops there. *)
Lemma reset_loop_success req pre id rest (st : State E) w1 w2 :
  all_fail req pre (world st) w1 ->
  brIdentity_setIdentityPassword E id (<["id" := id]> (body req)) w1
    = (None, w2) ->
  reset_loop req (pre ++ id :: rest) st =
    ({| success := 1; identityIds := rest |},
     {| world := w2;
        trace := (trace st ++ map (fun i => attempt req i false) pre
                           ++ [attempt req id true])%list |}).
Proof.
  revert st. induction pre as [|p pre IH]; intros st Hf Hok.
  - cbn in Hf. subst w1. cbn [app]. rewrite reset_loop_cons, Hok.
    reflexivity.
  - destruct Hf as (err & w' & Hset & Hf).
    cbn [app]. rewrite reset_loop_cons, Hset. cbv zeta.
    match goal with |- context [reset_loop req _ ?s] =>
      rewrite (IH s Hf Hok)
    end.
    cbn [trace map]. rewrite <- !app_assoc. reflexivity.
Qed.

(** The answers of [setIdentityPassword] to the calls in resolution order
    are of one of two kinds. *)
Lemma all_fail_or_first_success req ids (w : World E) :
  (exists pre id rest w1 w2,
     ids = (pre ++ id :: rest)%list
     /\ all_fail req pre w w1
     /\ brIdentity_setIdentityPassword E id (<["id" := id]> (body req)) w1
          = (None, w2))
  \/ exists w', all_fail req ids w w'.
Proof.
  revert w. induction ids as [|id ids IH]; intros w.
  - right. exists w. reflexivity.
  - destruct (brIdentity_setIdentityPassword E id
                (<["id" := id]> (body req)) w) as [[err|] w1] eqn:Hset.
    + destruct (IH w1) as [(pre & id' & rest & w2 & w3 & -> & Hf & Hok)
                          | (w' & Hf)].
      * left. exists (id :: pre), id', rest, w2, w3.
        split; [reflexivity|]. split; [|exact Hok].
        cbn. eauto.
      * right. exists w'. cbn. eauto.
    + left. exists [], id, ids, w, w1. cbn. auto.
Qed.

(** What the loop does, from the answers of [setIdentityPassword]. *)
Lemma reset_loop_cases req ids (st : State E) :
  (exists pre id rest w1 w2,
     ids = (pre ++ id :: rest)%list
     /\ all_fail req pre (world st) w1
     /\ brIdentity_setIdentityPassword E id (<["id" := id]> (body req)) w1
          = (None, w2)
     /\ reset_loop req ids st =
          ({| success := 1; identityIds := rest |},
           {| world := w2;
              trace := (trace st ++ map (fun i => attempt req i false) pre
                                 ++ [attempt req id true])%list |}))
  \/ (exists w',
        all_fail req ids (world st) w'
        /\ reset_loop req ids st =
             ({| success := -1; identityIds := [] |},
              {| world := w';
                 trace := (trace st ++
                           map (fun i => attempt req i false) ids)%list |})).
Proof.
  destruct (all_fail_or_first_success req ids (world st))
    as [(pre & id & rest & w1 & w2 & -> & Hf & Hok) | (w' & Hf)].
  - left. exists pre, id, rest, w1, w2.
    split; [reflexivity|]. split; [exact Hf|]. split; [exact Hok|].
    exact (reset_loop_success req pre id rest st w1 w2 Hf Hok).
  - right. exists w'. split; [exact Hf|].
    exact (reset_loop_all_fail req ids st w' Hf).
Qed.

End PasswordReset.

(** ** The route handlers *)

Section Handlers.
Context {E : Env}.
Import Routes.

(** C4. [POST /session/password/reset] answers 204 exactly when the
    identifier resolves to a list of identities and [setIdentityPassword]
    succeeds for one of them: the calls for the identities before it, made
    in resolution order, fail, and the call for that identity succeeds.
    When the identifier resolves to a list (possibly empty) and
    [setIdentityPassword] fails for every identity of it, the handler calls
    [next] with the error named 'bedrock.services.PasswordResetFailed'
    with httpStatusCode 403. Success and failure are the answers of
    [brIdentity.setIdentityPassword] itself. *)
Theorem postPasswordReset_204_iff req (st : State E) :
  (fst (postPasswordReset req st) = Responded (Send 204) <->
   exists ids w pre id rest w1 w2,
     brIdentity_resolveIdentityIdentifier E
       (body req !! "sysIdentifier") (world st) = (Ok ids, w)
     /\ ids = (pre ++ id :: rest)%list
     /\ all_fail req pre w w1
     /\ brIdentity_setIdentityPassword E id (<["id" := id]> (body req)) w1
          = (None, w2))
  /\ (forall ids w w',
        brIdentity_resolveIdentityIdentifier E
          (body req !! "sysIdentifier") (world st) = (Ok ids, w) ->
        all_fail req ids w w' ->
        fst (postPasswordReset req st) =
          CalledNext
            (Some (BedrockError
                     "The password reset failed for the given identity."
                     "bedrock.services.PasswordResetFailed"
                     {| public := Some true; httpStatusCode := Some 403;
                        sysIdentifier := body req !! "sysIdentifier";
                        details_identity := None |}
                     None))).
Proof.
  unfold postPasswordReset, bind, call.
  destruct (brIdentity_resolveIdentityIdentifier E _ (world st))
    as [[ids|e] w] eqn:Hres.
  - fold (reset_loop req ids
            {| world := w;
               trace := (trace st ++
                         [EvResolveIdentityIdentifier
                            (body req !! "sysIdentifier")])%list |}).
    set (st1 := {| world := w;
                   trace := (trace st ++
                             [EvResolveIdentityIdentifier
                                (body req !! "sysIdentifier")])%list |}).
    destruct (reset_loop_cases req ids st1)
      as [(pre & id & rest & w1 & w2 & Hids & Hf & Hok & Heq)
         | (w' & Hf & Heq)].
    + rewrite Heq. cbn. split.
      * split; [intros _|reflexivity].
        exists ids, w, pre, id, rest, w1, w2. auto.
      * intros ids' w0 w' Hr Hf'. injection Hr as <- <-.
        pose proof (reset_loop_all_fail req ids st1 w' Hf') as Heq'.
        rewrite Heq in Heq'. discriminate.
    + rewrite Heq. cbn. split.
      * split; [discriminate|].
        intros (ids' & w0 & pre & id & rest & w1 & w2 & Hr & Hids & Hf' & Hok).
        injection Hr as <- <-. subst ids.
        pose proof (reset_loop_success req pre id rest st1 w1 w2 Hf' Hok)
          as Heq'.
        rewrite Heq in Heq'. discriminate.
      * intros ids' w0 w'' Hr _. reflexivity.
  - cbn. split.
    + split; [discriminate|].
      intros (ids & w0 & pre & id & rest & w1 & w2 & Hr & _). discriminate.
    + intros ids w0 w' Hr. discriminate.
Qed.

(** C5, as amended. When the identifier of [POST /session/passcode] resolves
    to an empty list the handler calls [next] with the error named
    'bedrock.services.IdentityNotFound' with httpStatusCode 404 and calls
    nothing else. When it resolves to a non-empty list, the handler looks up
    the identities by the hashes of all resolved IDs; if the lookup succeeds
    it calls [sendIdentityPasscodes] once with the identities of all records
    found and with usage 'verify' if the query parameter [usage] is
    'verify' and 'reset' otherwise, and answers 204 if that call succeeds;
    an error of the lookup or of the sending goes to [next] instead. *)
Theorem postPasscode_spec req (st : State E) ids w1 :
  brIdentity_resolveIdentityIdentifier E (body req !! "sysIdentifier")
                                       (world st) = (Ok ids, w1) ->
  let resolved := EvResolveIdentityIdentifier (body req !! "sysIdentifier") in
  let looked_up := EvGetIdentities (map (db_hash E) ids) in
  let usage :=
    if bool_decide (query req !! "usage" = Some "verify")
    then "verify" else "reset" in
  (ids = [] ->
   postPasscode req st =
     (CalledNext
        (Some (BedrockError "The given email address is not registered."
                 "bedrock.services.IdentityNotFound"
                 {| public := Some true; httpStatusCode := Some 404;
                    sysIdentifier := body req !! "sysIdentifier";
                    details_identity := None |}
                 None)),
      {| world := w1; trace := (trace st ++ [resolved])%list |}))
  /\ (ids <> [] ->
      forall records w2,
        brIdentity_getIdentities E (map (db_hash E) ids) w1
          = (Ok records, w2) ->
        let sent :=
          EvSendIdentityPasscodes (map record_identity records) usage in
        (forall w3,
           brIdentity_sendIdentityPasscodes E
             (map record_identity records) usage w2 = (None, w3) ->
           postPasscode req st =
             (Responded (Send 204),
              {| world := w3;
                 trace := (trace st ++ [resolved; looked_up; sent])%list |}))
        /\ (forall err w3,
              brIdentity_sendIdentityPasscodes E
                (map record_identity records) usage w2 = (Some err, w3) ->
              postPasscode req st =
                (CalledNext (Some err),
                 {| world := w3;
                    trace :=
                      (trace st ++ [resolved; looked_up; sent])%list |})))
  /\ (ids <> [] ->
      forall err w2,
        brIdentity_getIdentities E (map (db_hash E) ids) w1
          = (Err err, w2) ->
        postPasscode req st =
          (CalledNext (Some err),
           {| world := w2;
              trace := (trace st ++ [resolved; looked_up])%list |})).
Proof.
  intros Hres resolved looked_up usage.
  assert (Husage : passcode_usage req = usage).
  { unfold passcode_usage, usage. repeat case_bool_decide; reflexivity. }
  unfold postPasscode, bind, call, ret. rewrite Hres. cbn [world trace].
  rewrite Husage.
  split; [|split].
  - intros ->. reflexivity.
  - intros Hne records w2 Hget.
    destruct ids as [|i ids]; [congruence|].
    cbn [length Nat.eqb world trace].
    rewrite Hget. cbn [world trace].
    split.
    + intros w3 Hsend. rewrite Hsend. cbn [trace].
      rewrite <- !app_assoc. reflexivity.
    + intros err w3 Hsend. rewrite Hsend. cbn [trace].
      rewrite <- !app_assoc. reflexivity.
  - intros Hne err w2 Hget.
    destruct ids as [|i ids]; [congruence|].
    cbn [length Nat.eqb world trace].
    rewrite Hget. cbn [trace]. rewrite <- !app_assoc. reflexivity.
Qed.

(** C3. Every POST route that [addRoutes] registers is one of /join,
    /session/login, /session/password/reset and /session/passcode, and its
    handlers are the validation middleware, with the schema of that route,
    followed by the handler that delegates. The delegating handler runs after the validation and only
    for a request that is valid; for a request that fails validation the
    route ends with [next(err)] and the validation is the only call made:
    the identity module and the passport strategies are not invoked. *)
Theorem validation_precedes_delegation enable (r : Route (E:=E)) :
  In r (addRoutes enable) ->
  method r = "POST" ->
  exists schema h,
    In (path r, schema)
       [("/join", BodySchema "services.session.postJoin");
        ("/session/login", BodySchema "services.session.postLogin");
        ("/session/password/reset",
         BodySchema "services.session.postPasswordReset");
        ("/session/passcode", BodySchema "services.session.postPasscode")]
    /\ handlers r = [validate schema; h]
    /\ In h [postJoin; postLogin; postPasswordReset; postPasscode]
    /\ forall req (st : State E),
         dispatch (handlers r) req st =
           let st' := {| world := world st;
                         trace := (trace st ++ [EvValidate schema])%list |} in
           match validate_request E schema req with
           | Some err => (CalledNext (Some err), st')
           | None => h req st'
           end.
Proof.
  assert (Hd : forall schema (h : Handler) req (st : State E),
    dispatch [validate schema; h] req st =
      let st' := {| world := world st;
                    trace := (trace st ++ [EvValidate schema])%list |} in
      match validate_request E schema req with
      | Some err => (CalledNext (Some err), st')
      | None => h req st'
      end).
  { intros schema h req st. cbn [dispatch].
    unfold validate, bind, emit, ret.
    destruct (validate_request E schema req) as [err|]; [reflexivity|].
    cbv zeta.
    destruct (h req _) as [[rep|[err|]| |] st'']; reflexivity. }
  intros Hin Hm.
  unfold addRoutes in Hin. apply in_app_or in Hin.
  destruct Hin as [Hin | Hin].
  - destruct enable; [|destruct Hin].
    destruct Hin as [<- | [<- | []]]; [discriminate Hm|].
    eexists _, _.
    split; [|split; [reflexivity | split; [cbn; auto | apply Hd]]].
    cbn. auto.
  - destruct Hin as [<- | [<- | [<- | [<- | [<- | [<- | []]]]]]];
      try discriminate Hm;
      (eexists _, _;
       split; [|split; [reflexivity | split; [cbn; auto 6 | apply Hd]]];
       cbn; auto 6).
Qed.
End Handlers.

(** ** The two login functions *)

Section Login.
Context {E : Env}.

(** C9, as amended. [_login] makes the same calls as [api.login] and
    delivers the same user, the same choice and the same errors, the
    invalid-login error having the same type string; but an error that
    [api.login] gives to [callback] before [req.logIn] is reached (an error
    of the password strategy, the invalid-login error, an error of an
    identity lookup) is given to [next] by [_login]. An error of [req.logIn]
    goes to [callback] in both. *)
Theorem login_same_but_for_channel req (st : State E) :
  Routes._login req st =
    (through_next (fst (PassportLib.login req st)),
     snd (PassportLib.login req st))
  /\ Routes.invalid_login = PassportLib.invalid_login.
Proof.
  split; [|reflexivity].
  unfold Routes._login, PassportLib.login, bind, call.
  destruct (passport_authenticate E "bedrock.password" req (world st))
    as [[err u info|err] w].
  - destruct u as [| |u].
    + destruct info as [info|]; [|reflexivity].
      destruct (matches info) as [ids|]; [|reflexivity].
      change (@Routes.add_identity E) with (@PassportLib.add_identity E).
      destruct (Async.forEach ids PassportLib.add_identity _ _)
        as [[[e|] choice] st']; reflexivity.
    + destruct info as [info|]; [|reflexivity].
      destruct (matches info) as [ids|]; [|reflexivity].
      change (@Routes.add_identity E) with (@PassportLib.add_identity E).
      destruct (Async.forEach ids PassportLib.add_identity _ _)
        as [[[e|] choice] st']; reflexivity.
    + destruct err as [e|]; [reflexivity|]. cbn [world trace].
      destruct (req_logIn E req u w) as [[e|] w']; reflexivity.
  - reflexivity.
Qed.
End Login.

(** C3 at the route POST /session/passcode and a request without
    [sysIdentifier], which the sample validator rejects. *)
Lemma validation_precedes_delegation_witness :
  Routes.dispatch
    [Routes.validate (BodySchema "services.session.postPasscode");
     Routes.postPasscode]
    (request VFalse []) (start env_lookup_alice tt) =
  (CalledNext (Some (ExternalError "ValidationError")),
   {| world := tt : World env_lookup_alice;
      trace := [EvValidate (BodySchema "services.session.postPasscode")] |}).
Proof.
  destruct (validation_precedes_delegation (E:=env_lookup_alice) true
              {| Routes.method := "POST"; Routes.path := "/session/passcode";
                 Routes.handlers :=
                   [Routes.validate
                      (BodySchema "services.session.postPasscode");
                    Routes.postPasscode] |})
    as (schema & h & Hs & _ & _ & Hrun).
  - cbn. auto 10.
  - reflexivity.
  - cbn [Routes.handlers Routes.path] in Hs, Hrun. rewrite Hrun.
    destruct Hs as [Hs | [Hs | [Hs | [Hs | []]]]]; try discriminate Hs.
    injection Hs as <-. reflexivity.
Defined.

(** The claim C5 as stated fails when the identity lookup fails: the
    identifier resolves to a non-empty list, yet no passcode is sent and the
    answer is not 204. *)
Lemma postPasscode_lookup_error_counterexample :
  brIdentity_resolveIdentityIdentifier env_lookup_error (Some "alice") tt
    = (Ok ["alice"], tt)
  /\ Routes.postPasscode (E:=env_lookup_error)
       (request VFalse [("sysIdentifier", "alice")])
       (start env_lookup_error tt) =
     (CalledNext (Some (ExternalError "database")),
      {| world := tt : World env_lookup_error;
         trace := [EvResolveIdentityIdentifier (Some "alice");
                   EvGetIdentities ["alice"]] |})
  /\ fst (Routes.postPasscode (E:=env_lookup_error)
            (request VFalse [("sysIdentifier", "alice")])
            (start env_lookup_error tt)) <> Responded (Send 204).
Proof.
  split; [reflexivity|]. split; [reflexivity|]. discriminate.
Qed.

(** C5 as amended, at a request whose identifier resolves to alice. *)
Lemma postPasscode_spec_witness :
  Routes.postPasscode (E:=env_lookup_alice)
    (request VFalse [("sysIdentifier", "alice")])
    (start env_lookup_alice tt) =
  (Responded (Send 204),
   {| world := tt : World env_lookup_alice;
      trace := [EvResolveIdentityIdentifier (Some "alice");
                EvGetIdentities ["alice"];
                EvSendIdentityPasscodes [identity alice] "reset"] |}).
Proof.
  destruct (postPasscode_spec (E:=env_lookup_alice)
              (request VFalse [("sysIdentifier", "alice")])
              (start env_lookup_alice tt) ["alice"] tt eq_refl)
    as (_ & Hsend & _).
  destruct (Hsend ltac:(discriminate)
              [ {| record_identity := identity alice |} ] tt eq_refl)
    as [H204 _].
  exact (H204 tt eq_refl).
Defined.

(** The claim C9 as stated fails for credentials that the password strategy
    rejects: [api.login] gives the invalid-login error to [callback],
    [_login] gives it to [next]. *)
Lemma login_channel_counterexample :
  fst (PassportLib.login (E:=env_signed_bob) (request VFalse [])
         (start env_signed_bob tt)) =
    Callback (Some (BedrockError
                      "The email address and password combination you entered is incorrect."
                      "bedrock.services.InvalidLogin"
                      {| public := Some true; httpStatusCode := Some 400;
                         sysIdentifier := None; details_identity := None |}
                      None))
             VUndefined None
  /\ fst (Routes._login (E:=env_signed_bob) (request VFalse [])
            (start env_signed_bob tt)) =
    LoginNext (Some (BedrockError
                       "The email address and password combination you entered is incorrect."
                       "bedrock.services.InvalidLogin"
                       {| public := Some true; httpStatusCode := Some 400;
                          sysIdentifier := None; details_identity := None |}
                       None))
  /\ fst (PassportLib.login (E:=env_signed_bob) (request VFalse [])
            (start env_signed_bob tt)) <>
     fst (Routes._login (E:=env_signed_bob) (request VFalse [])
            (start env_signed_bob tt)).
Proof.
  split; [reflexivity|]. split; [reflexivity|]. discriminate.
Qed.

(** C4 at a request whose identifier resolves to alice, bob and carol, where
    only bob's password can be set: alice is tried and fails, bob is tried
    and succeeds, carol is not tried. *)
Example postPasswordReset_second_succeeds :
  Routes.postPasswordReset (E:=env_reset_bob)
    (request VFalse [("sysIdentifier", "abc")]) (start env_reset_bob tt) =
  (Responded (Send 204),
   {| world := tt : World env_reset_bob;
      trace := [EvResolveIdentityIdentifier (Some "abc");
                attempt (request VFalse [("sysIdentifier", "abc")])
                        "alice" false;
                attempt (request VFalse [("sysIdentifier", "abc")])
                        "bob" true] |}).
Proof. reflexivity. Qed.

(** C4 at the same request: the call for alice fails and the call for bob
    succeeds, so the answer is 204. *)
Lemma postPasswordReset_204_iff_witness :
  fst (Routes.postPasswordReset (E:=env_reset_bob)
         (request VFalse [("sysIdentifier", "abc")])
         (start env_reset_bob tt)) = Responded (Send 204).
Proof.
  apply (proj1 (postPasswordReset_204_iff (E:=env_reset_bob)
                  (request VFalse [("sysIdentifier", "abc")])
                  (start env_reset_bob tt))).
  exists ["alice"; "bob"; "carol"], tt, ["alice"], "bob", ["carol"], tt, tt.
  split; [reflexivity|]. split; [reflexivity|]. split; [|reflexivity].
  exists (ExternalError "passcode"), tt. split; reflexivity.
Defined.

(** * Further properties *)

(** ** [api.checkAuthentication] and its middleware *)

Section AuthenticationMore.
Context {E : Env}.
Import PassportLib.

Lemma httpSignature_disabled req (st : State E) :
  httpSignature_enabled E (world st) = false ->
  Async.task_fn (httpSignature req) ∅ st = (Ok VFalse, st).
Proof.
  intros H. cbn [Async.task_fn httpSignature]. unfold bind, ask.
  rewrite H. reflexivity.
Qed.

Lemma httpSignature_enabled_trace req (st : State E) :
  httpSignature_enabled E (world st) = true ->
  trace (snd (Async.task_fn (httpSignature req) ∅ st)) =
    (trace st ++ [EvAuthenticate "bedrock.httpSignature"])%list.
Proof.
  intros H. cbn [Async.task_fn httpSignature]. unfold bind, ask, call, ret.
  rewrite H. cbn [negb].
  destruct (passport_authenticate E _ req (world st)) as [o w].
  reflexivity.
Qed.

Lemma reconcile_shape s h :
  (exists u, reconcile s h = Some (Ok (VUser u)))
  \/ reconcile s h = Some (Ok VFalse)
  \/ exists cause, reconcile s h = Some (Err (authentication_error cause)).
Proof.
  destruct h as [hv|e]; [|right; right; eexists; reflexivity].
  destruct s as [| |su], hv as [| |hu]; simpl; eauto.
  case_bool_decide; eauto.
Qed.

(** X1. With HTTP-signature authentication disabled in the configuration,
    [checkAuthentication] does not invoke the signature strategy and does
    not fail: it calls back with the session user if the request has one
    and with [false] otherwise, and leaves the state as it was. *)
Theorem checkAuthentication_signature_disabled sched req (st : State E) :
  httpSignature_enabled E (world st) = false ->
  checkAuthentication sched req st =
    (Some (Ok (if isAuthenticated req then user req else VFalse)), st).
Proof.
  intros H. rewrite checkAuthentication_spec, (httpSignature_disabled _ _ H).
  unfold session_value, isAuthenticated.
  destruct (user req) as [| |u]; reflexivity.
Qed.

(** X2. Whatever the order in which the checks complete and whatever the
    signature strategy does, [checkAuthentication] never calls back with
    [undefined], also when the strategy ends with a bare [next()]: what the
    callback gets is a user, [false], or the error
    'Request authentication error.' named 'bedrock.website.PermissionDenied'
    with httpStatusCode 400, whose cause is the error of the signature check
    or the mismatch error. *)
Theorem checkAuthentication_callback_shape sched req (st : State E) r :
  fst (checkAuthentication sched req st) = Some r ->
  (exists u, r = Ok (VUser u))
  \/ r = Ok VFalse
  \/ exists cause,
       r = Err (BedrockError "Request authentication error."
                  "bedrock.website.PermissionDenied"
                  {| public := Some true; httpStatusCode := Some 400;
                     sysIdentifier := None; details_identity := None |}
                  (Some cause))
       /\ (httpSignature_check req st = Err cause
           \/ cause = BedrockError "Request authentication mismatch."
                        "bedrock.website.PermissionDenied"
                        {| public := Some true; httpStatusCode := Some 400;
                           sysIdentifier := None;
                           details_identity := None |}
                        None).
Proof.
  rewrite checkAuthentication_result.
  destruct (httpSignature_check req st) as [hv|e]; cbn.
  - destruct (session_value req) as [| |su], hv as [| |hu]; cbn;
      try case_bool_decide; intros Hr; injection Hr as <-; eauto.
    right. right. eexists. split; [reflexivity|]. right. reflexivity.
  - intros Hr. injection Hr as <-.
    right. right. eexists. split; [reflexivity|]. left. reflexivity.
Qed.

(** X3. When HTTP-signature authentication is enabled, one run of
    [checkAuthentication] invokes the signature strategy exactly once and
    makes no other call, whether or not the request already has a session
    user and whatever the order of completion. *)
Theorem checkAuthentication_one_strategy_call sched req (st : State E) :
  httpSignature_enabled E (world st) = true ->
  trace (snd (checkAuthentication sched req st)) =
    (trace st ++ [EvAuthenticate "bedrock.httpSignature"])%list.
Proof.
  intros H. rewrite checkAuthentication_spec.
  rewrite <- (httpSignature_enabled_trace req st H).
  destruct (Async.task_fn (httpSignature req) ∅ st); reflexivity.
Qed.

Lemma ensureAuthenticated_next sched req (st : State E) err :
  snd (fst (ensureAuthenticated sched req st)) = Next (Some err) ->
  error_name err = Some "bedrock.website.PermissionDenied"
  /\ error_details err = Some (public_status 400).
Proof.
  pose proof (reconcile_shape (session_value req)
                (httpSignature_check req st)) as Hs.
  rewrite <- (checkAuthentication_result sched) in Hs.
  unfold ensureAuthenticated, optionallyAuthenticated, bind, ret.
  destruct (checkAuthentication sched req st) as [r st']. cbn [fst] in Hs.
  destruct Hs as [[u ->] | [-> | [cause ->]]]; cbn.
  - discriminate.
  - destruct (truthy (user req)); cbn; intros H; [discriminate|].
    injection H as <-. auto.
  - intros H. injection H as <-. auto.
Qed.

(** X4. Every error that [ensureAuthenticated] passes to [next] is named
    'bedrock.website.PermissionDenied' and has the details
    [{public: true, httpStatusCode: 400}]. *)
Theorem ensureAuthenticated_permission_denied sched req (st : State E) err :
  snd (fst (ensureAuthenticated sched req st)) = Next (Some err) ->
  error_name err = Some "bedrock.website.PermissionDenied"
  /\ error_details err =
       Some {| public := Some true; httpStatusCode := Some 400;
               sysIdentifier := None; details_identity := None |}.
Proof.
  exact (ensureAuthenticated_next sched req st err).
Qed.

(** X5. [optionallyAuthenticated] never touches [req.body] or [req.query],
    and a request that already carries a session user keeps that user:
    when [next()] is called without an error the request is unchanged, so a
    signature of the same identity does not replace [req.user]. *)
Theorem optionallyAuthenticated_keeps_session sched req (st : State E) :
  body (fst (fst (optionallyAuthenticated sched req st))) = body req
  /\ query (fst (fst (optionallyAuthenticated sched req st))) = query req
  /\ (isAuthenticated req = true ->
      snd (fst (optionallyAuthenticated sched req st)) = Next None ->
      fst (fst (optionallyAuthenticated sched req st)) = req).
Proof.
  pose proof (checkAuthentication_result sched req st) as Hr.
  unfold optionallyAuthenticated, bind, ret.
  destruct (checkAuthentication sched req st) as [[[v|e]|] st'];
    cbn [fst snd] in *.
  - destruct (truthy v) eqn:Hv; cbn; (split; [reflexivity|]);
      (split; [reflexivity|]); [|reflexivity].
    intros Ha _. unfold session_value in Hr. rewrite Ha in Hr.
    unfold isAuthenticated in Ha.
    destruct req as [[| |u] b q]; try discriminate. cbn in Hr.
    destruct (httpSignature_check _ st) as [[| |hu]|e]; cbn in Hr;
      try case_bool_decide; try discriminate; injection Hr as ->;
      reflexivity.
  - cbn. auto.
  - cbn. auto.
Qed.
End AuthenticationMore.

(** X1 at a request with a session for alice. *)
Lemma checkAuthentication_signature_disabled_witness :
  PassportLib.checkAuthentication
    (E:=disable_httpSignature env_signed_bob) [1%nat]
    (request (VUser alice) [])
    (start (disable_httpSignature env_signed_bob) tt) =
  (Some (Ok (VUser alice)), start (disable_httpSignature env_signed_bob) tt).
Proof.
  apply (checkAuthentication_signature_disabled
           (E:=disable_httpSignature env_signed_bob)).
  reflexivity.
Defined.

(** X2 where the signature strategy fails with an error. *)
Lemma checkAuthentication_callback_shape_witness :
  (exists u, @Err Value (PassportLib.authentication_error
                           (ExternalError "signature")) = Ok (VUser u))
  \/ @Err Value (PassportLib.authentication_error
                   (ExternalError "signature")) = Ok VFalse
  \/ exists cause,
       @Err Value (PassportLib.authentication_error
                    (ExternalError "signature")) =
         Err (BedrockError "Request authentication error."
                "bedrock.website.PermissionDenied"
                {| public := Some true; httpStatusCode := Some 400;
                   sysIdentifier := None; details_identity := None |}
                (Some cause))
       /\ (httpSignature_check (E:=env_signature_error)
             (request (VUser alice) []) (start env_signature_error tt)
             = Err cause
           \/ cause = BedrockError "Request authentication mismatch."
                        "bedrock.website.PermissionDenied"
                        {| public := Some true; httpStatusCode := Some 400;
                           sysIdentifier := None;
                           details_identity := None |}
                        None).
Proof.
  apply (checkAuthentication_callback_shape (E:=env_signature_error) []
           (request (VUser alice) []) (start env_signature_error tt)).
  reflexivity.
Defined.

(** X3 at a request with a session for alice and a signature of bob. *)
Lemma checkAuthentication_one_strategy_call_witness :
  trace (snd (PassportLib.checkAuthentication (E:=env_signed_bob) [0%nat]
                (request (VUser alice) []) (start env_signed_bob tt))) =
    [EvAuthenticate "bedrock.httpSignature"].
Proof.
  apply (checkAuthentication_one_strategy_call (E:=env_signed_bob)).
  reflexivity.
Defined.

(** X4 at a request with a session for alice and a signature of bob. *)
Lemma ensureAuthenticated_permission_denied_witness :
  error_name (PassportLib.authentication_error PassportLib.mismatch) =
    Some "bedrock.website.PermissionDenied"
  /\ error_details (PassportLib.authentication_error PassportLib.mismatch) =
       Some {| public := Some true; httpStatusCode := Some 400;
               sysIdentifier := None; details_identity := None |}.
Proof.
  apply (ensureAuthenticated_permission_denied (E:=env_signed_bob)
           [] (request (VUser alice) []) (start env_signed_bob tt)).
  reflexivity.
Defined.

(** X5 at a request with a session for alice and no signature. *)
Lemma optionallyAuthenticated_keeps_session_witness :
  fst (fst (PassportLib.optionallyAuthenticated (E:=env_unsigned) []
              (request (VUser alice) []) (start env_unsigned tt))) =
    request (VUser alice) [].
Proof.
  apply (proj2 (proj2 (optionallyAuthenticated_keeps_session
                         (E:=env_unsigned) [] (request (VUser alice) [])
                         (start env_unsigned tt)))); reflexivity.
Defined.

(** ** The login functions *)

Section LoginMore.
Context {E : Env}.

Lemma forEach_add_identity_cons id ids (c : Choice) (st : State E) :
  Async.forEach (id :: ids) PassportLib.add_identity c st =
  let (r, w) := brIdentity_getIdentity E id (world st) in
  let st1 := {| world := w;
                trace := (trace st ++ [EvGetIdentity id])%list |} in
  match r with
  | Ok ident =>
      let (r', st') :=
        Async.forEach ids PassportLib.add_identity
          {| choice_email := choice_email c;
             identities := <[id := ident]> (identities c) |} st1 in
      ((fst r', snd r'), st')
  | Err err =>
      let (r', st') := Async.forEach ids PassportLib.add_identity c st1 in
      ((Some err, snd r'), st')
  end.
Proof.
  cbn [Async.forEach]. unfold bind, PassportLib.add_identity, call, ret.
  unfold bind.
  destruct (brIdentity_getIdentity E id (world st)) as [[ident|err] w];
    reflexivity.
Qed.

Lemma forEach_add_identity ids (c : Choice) (st : State E) :
  trace (snd (Async.forEach ids PassportLib.add_identity c st)) =
    (trace st ++ map EvGetIdentity ids)%list
  /\ choice_email (snd (fst (Async.forEach ids PassportLib.add_identity c st)))
     = choice_email c
  /\ (fst (fst (Async.forEach ids PassportLib.add_identity c st)) = None ->
      dom (identities
             (snd (fst (Async.forEach ids PassportLib.add_identity c st)))) =
        dom (identities c) ∪ list_to_set ids).
Proof.
  revert c st. induction ids as [|id ids IH]; intros c st.
  - cbn. rewrite app_nil_r. split; [reflexivity|]. split; [reflexivity|].
    intros _. set_solver.
  - rewrite forEach_add_identity_cons.
    destruct (brIdentity_getIdentity E id (world st)) as [[ident|err] w];
      cbv zeta;
      match goal with |- context [Async.forEach ids _ ?c' ?st'] =>
        destruct (IH c' st') as (Ht & He & Hd);
        destruct (Async.forEach ids PassportLib.add_identity c' st')
          as [[e c''] st'']
      end;
      cbn [fst snd trace identities choice_email] in *;
      (split; [rewrite Ht, <- app_assoc; reflexivity|]);
      (split; [exact He|]).
    + intros ->. rewrite Hd by reflexivity.
      rewrite dom_insert_L. set_solver.
    + discriminate.
Qed.

Lemma not_logIn_lookup u (ids : list string) :
  ~ In (EvLogIn u) (map EvGetIdentity ids).
Proof.
  intros H. apply in_map_iff in H. destruct H as (i & Hi & _). discriminate.
Qed.

Lemma lookups_ids ids (w : World E) : map fst (fst (lookups ids w)) = ids.
Proof.
  revert w. induction ids as [|id ids IH]; intros w; [reflexivity|].
  cbn. destruct (brIdentity_getIdentity E id w) as [r w1].
  specialize (IH w1). destruct (lookups ids w1) as [rs w'].
  cbn in *. rewrite IH. reflexivity.
Qed.

Lemma found_dom rs (m : gmap string (gmap string string)) :
  first_error rs = None ->
  dom (found rs m) = dom m ∪ list_to_set (map fst rs).
Proof.
  revert m. induction rs as [|[id [ident|e]] rs IH]; intros m; cbn.
  - intros _. rewrite (right_id_L ∅ (∪)). reflexivity.
  - intros H. rewrite (IH _ H), dom_insert_L.
    rewrite (comm_L (∪) {[id]} (dom m)), <- (assoc_L (∪)). reflexivity.
  - discriminate.
Qed.

(** [async.forEach] over the matched IDs, from the answers of the identity
    module. *)
Lemma forEach_add_identity_lookups ids (c : Choice) (st : State E) :
  Async.forEach ids PassportLib.add_identity c st =
    ((first_error (fst (lookups ids (world st))),
      {| choice_email := choice_email c;
         identities := found (fst (lookups ids (world st))) (identities c) |}),
     {| world := snd (lookups ids (world st));
        trace := (trace st ++ map EvGetIdentity ids)%list |}).
Proof.
  revert c st. induction ids as [|id ids IH]; intros c st.
  - cbn. rewrite app_nil_r. destruct c, st; reflexivity.
  - rewrite forEach_add_identity_cons. cbn [lookups].
    destruct (brIdentity_getIdentity E id (world st)) as [[ident|err] w];
      cbv zeta; rewrite IH; cbn [world trace choice_email identities];
      destruct (lookups ids w) as [rs w'];
      cbn [fst snd first_error found map]; rewrite <- app_assoc;
      reflexivity.
Qed.

(** X6. When the password strategy reports several matching identities
    ([info.matches]), [api.login] looks up every matched ID, in order and
    also after a lookup has failed, and does not call [req.logIn]. If a
    lookup fails, the callback gets the first such error alone. If all
    lookups succeed, the callback gets [false] and a choice whose email is
    [info.email] and whose [identities] holds the identities the identity
    module returned, under exactly the matched IDs. *)
Theorem login_multiple_matches req (st : State E) err u info ids w :
  passport_authenticate E "bedrock.password" req (world st) =
    (CustomCallback err u (Some info), w) ->
  truthy u = false ->
  matches info = Some ids ->
  PassportLib.login req st =
    (match first_error (fst (lookups ids w)) with
     | Some e => Callback (Some e) VUndefined None
     | None =>
         Callback None VFalse
           (Some {| choice_email := email info;
                    identities := found (fst (lookups ids w)) ∅ |})
     end,
     {| world := snd (lookups ids w);
        trace := (trace st ++ EvAuthenticate "bedrock.password"
                           :: map EvGetIdentity ids)%list |})
  /\ (first_error (fst (lookups ids w)) = None ->
      dom (found (fst (lookups ids w)) ∅) = list_to_set ids).
Proof.
  intros Ha Hu Hm. split.
  - unfold PassportLib.login, bind, call. rewrite Ha.
    destruct u as [| |u']; try discriminate; rewrite Hm; unfold bind, ret;
      rewrite forEach_add_identity_lookups;
      cbn [fst snd world trace choice_email identities];
      rewrite <- app_assoc;
      destruct (first_error (fst (lookups ids w))); reflexivity.
  - intros Hn. rewrite (found_dom _ _ Hn), lookups_ids, dom_empty_L.
    apply (left_id_L ∅ (∪)).
Qed.

Ltac forEach_cases :=
  match goal with |- context [Async.forEach ?l _ ?c' ?st'] =>
    let Ht := fresh "Ht" in
    destruct (forEach_add_identity l c' st') as (Ht & _ & _);
    destruct (Async.forEach l PassportLib.add_identity c' st')
      as [[[?e|] ?c] ?st];
    cbn [fst snd trace] in *; unfold ret; cbn [fst snd];
    eexists;
    (split;
     [rewrite Ht, <- app_assoc; reflexivity | left; eexists; reflexivity])
  end.

Ltac no_lookup :=
  exists []; split; [reflexivity | left; exists []; reflexivity].

(** The calls a login function adds to the trace: the password strategy,
    then either identity lookups or one [req.logIn] for the user the
    strategy handed over without an error. *)
Lemma login_events req (st : State E) :
  exists evs,
    trace (snd (PassportLib.login req st)) =
      (trace st ++ EvAuthenticate "bedrock.password" :: evs)%list
    /\ ((exists ids, evs = map EvGetIdentity ids)
        \/ exists u info w,
             evs = [EvLogIn u]
             /\ passport_authenticate E "bedrock.password" req (world st) =
                  (CustomCallback None (VUser u) info, w)).
Proof.
  unfold PassportLib.login, bind, call.
  destruct (passport_authenticate E "bedrock.password" req (world st))
    as [[err u info|err] w]; [|no_lookup].
  destruct u as [| |u].
  - destruct info as [info|]; [|no_lookup].
    destruct (matches info) as [ids|]; [|no_lookup].
    unfold bind. forEach_cases.
  - destruct info as [info|]; [|no_lookup].
    destruct (matches info) as [ids|]; [|no_lookup].
    unfold bind. forEach_cases.
  - destruct err as [e|]; [no_lookup|].
    cbn [world trace]. destruct (req_logIn E req u w) as [e w'].
    exists [EvLogIn u]. cbn. rewrite <- app_assoc.
    split; [reflexivity|]. right. eauto.
Qed.

Lemma _login_events req (st : State E) :
  exists evs,
    trace (snd (Routes._login req st)) =
      (trace st ++ EvAuthenticate "bedrock.password" :: evs)%list
    /\ ((exists ids, evs = map EvGetIdentity ids)
        \/ exists u info w,
             evs = [EvLogIn u]
             /\ passport_authenticate E "bedrock.password" req (world st) =
                  (CustomCallback None (VUser u) info, w)).
Proof.
  unfold Routes._login, bind, call.
  change (@Routes.add_identity E) with (@PassportLib.add_identity E).
  destruct (passport_authenticate E "bedrock.password" req (world st))
    as [[err u info|err] w]; [|no_lookup].
  destruct u as [| |u].
  - destruct info as [info|]; [|no_lookup].
    destruct (matches info) as [ids|]; [|no_lookup].
    unfold bind. forEach_cases.
  - destruct info as [info|]; [|no_lookup].
    destruct (matches info) as [ids|]; [|no_lookup].
    unfold bind. forEach_cases.
  - destruct err as [e|]; [no_lookup|].
    cbn [world trace]. destruct (req_logIn E req u w) as [e w'].
    exists [EvLogIn u]. cbn. rewrite <- app_assoc.
    split; [reflexivity|]. right. eauto.
Qed.

Lemma logIn_in_events u (l evs : list Event) :
  In (EvLogIn u) (l ++ EvAuthenticate "bedrock.password" :: evs) ->
  In (EvLogIn u) l \/ In (EvLogIn u) evs.
Proof.
  intros H. apply in_app_or in H.
  destruct H as [H|[H|H]]; [auto | discriminate | auto].
Qed.

(** X7. Neither login function calls [req.logIn] unless the password
    strategy has handed over a user without an error: every [req.logIn]
    that a run adds to the trace is for exactly that user. *)
Theorem logIn_only_for_authenticated_user req (st : State E) :
  (forall u,
     In (EvLogIn u) (trace (snd (PassportLib.login req st))) ->
     In (EvLogIn u) (trace st)
     \/ exists info w,
          passport_authenticate E "bedrock.password" req (world st) =
            (CustomCallback None (VUser u) info, w))
  /\ (forall u,
        In (EvLogIn u) (trace (snd (Routes._login req st))) ->
        In (EvLogIn u) (trace st)
        \/ exists info w,
             passport_authenticate E "bedrock.password" req (world st) =
               (CustomCallback None (VUser u) info, w)).
Proof.
  split; intros u Hin;
    [destruct (login_events req st) as (evs & Ht & Hev)
    |destruct (_login_events req st) as (evs & Ht & Hev)];
    rewrite Ht in Hin; apply logIn_in_events in Hin;
    (destruct Hin as [Hin|Hin]; [left; exact Hin|]);
    (destruct Hev as [[ids ->] | (u' & info & w & -> & Ha)];
     [exfalso; exact (not_logIn_lookup _ _ Hin)|]);
    (destruct Hin as [Hin|[]]; injection Hin as ->; right; eauto).
Qed.

(** X8. When the custom callback of the password strategy is invoked
    without a user and without [info] (for instance with an error alone),
    both login functions throw on reading [info.matches]: nothing is handed
    to [callback] or [next], not even an error given to the callback. *)
Theorem login_throws_without_info req (st : State E) err u w :
  passport_authenticate E "bedrock.password" req (world st) =
    (CustomCallback err u None, w) ->
  truthy u = false ->
  fst (PassportLib.login req st) = LoginThrows
  /\ fst (Routes._login req st) = LoginThrows.
Proof.
  intros Ha Hu. unfold PassportLib.login, Routes._login, bind, call.
  rewrite Ha. destruct u; try discriminate; auto.
Qed.
End LoginMore.

(** ** Identity creation, join and login routes *)

Section RoutesMore.
Context {E : Env}.
Import Routes.

Lemma lookup_set_field k v (o : gmap string string) k' :
  set_field k v o !! k' = if decide (k = k') then v else o !! k'.
Proof.
  destruct v as [x|]; cbn; [apply lookup_insert | apply lookup_delete].
Qed.

(** The document [_createIdentity] hands to [brIdentity.createIdentity],
    and what follows that call. *)
Lemma _createIdentity_unfold req (st : State E) :
  exists ident,
    (ident !! "id" =
       Some (brIdentity_createIdentityId E (body req !! "sysSlug"))
     /\ ident !! "@context" = Some (CONTEXT_URL E)
     /\ (forall k, In k ["sysSlug"; "label"; "email"; "sysPassword"] ->
                   ident !! k = body req !! k)
     /\ (forall k, ident !! k <> None ->
                   In k ["@context"; "id"; "sysSlug"; "label"; "email";
                         "sysPassword"]))
    /\ _createIdentity req st =
         let (r, w) := brIdentity_createIdentity E ident (world st) in
         let st1 := {| world := w;
                       trace := (trace st ++ [EvCreateIdentity ident])%list |} in
         match r with
         | Err err =>
             (Err (if db_isDuplicateError E err
                   then duplicate_identity
                          (brIdentity_createIdentityId E
                             (body req !! "sysSlug"))
                   else err), st1)
         | Ok record =>
             (Ok (record_identity record),
              {| world := w;
                 trace := (trace st ++
                           [EvCreateIdentity ident;
                            EvEmitLater "brIdentity.created"
                              (record_identity record)])%list |})
         end.
Proof.
  unfold _createIdentity.
  match goal with |- context [brIdentity_createIdentity E ?d] =>
    exists d
  end.
  split.
  - repeat split.
    + rewrite !lookup_set_field. repeat (case_decide; [discriminate|]).
      apply lookup_insert_eq.
    + rewrite !lookup_set_field. repeat (case_decide; [discriminate|]).
      rewrite lookup_insert_ne by discriminate. apply lookup_insert_eq.
    + intros k Hk. rewrite !lookup_set_field.
      destruct Hk as [<- | [<- | [<- | [<- | []]]]];
        repeat (case_decide; [try discriminate; try reflexivity|]);
        try congruence.
    + intros k. rewrite !lookup_set_field.
      repeat (case_decide; [subst; intros _; cbn; tauto|]).
      rewrite !lookup_insert.
      repeat (case_decide; [subst; intros _; cbn; tauto|]).
      rewrite lookup_empty. congruence.
  - unfold bind, call, emit, ret.
    destruct (brIdentity_createIdentity E _ (world st)) as [[record|err] w];
      cbn [world trace]; [rewrite <- app_assoc|]; reflexivity.
Qed.

(** X9. The identity document that [_createIdentity] stores is built from
    the request alone in a fixed shape: its [id] is the ID made from
    [sysSlug], its [@context] is the configured context URL, [sysSlug],
    [label], [email] and [sysPassword] are those of the body, and no other
    field of the body (such as an [id] or an owner sent by the client)
    enters it. *)
Theorem createIdentity_document req (st : State E) :
  exists ident evs,
    trace (snd (_createIdentity req st)) =
      (trace st ++ EvCreateIdentity ident :: evs)%list
    /\ ident !! "id" =
         Some (brIdentity_createIdentityId E (body req !! "sysSlug"))
    /\ ident !! "@context" = Some (CONTEXT_URL E)
    /\ (forall k, In k ["sysSlug"; "label"; "email"; "sysPassword"] ->
                  ident !! k = body req !! k)
    /\ (forall k, ident !! k <> None ->
                  In k ["@context"; "id"; "sysSlug"; "label"; "email";
                        "sysPassword"]).
Proof.
  destruct (_createIdentity_unfold req st) as (ident & Hdoc & ->).
  exists ident.
  destruct (brIdentity_createIdentity E ident (world st))
    as [[record|err] w]; cbn [snd trace].
  - exists [EvEmitLater "brIdentity.created" (record_identity record)].
    split; [reflexivity | exact Hdoc].
  - exists []. split; [reflexivity | exact Hdoc].
Qed.

Lemma identity_document_unique req (a b : gmap string string) :
  is_identity_document (E:=E) req a -> is_identity_document (E:=E) req b -> a = b.
Proof.
  intros (Ha1 & Ha2 & Ha3 & Ha4) (Hb1 & Hb2 & Hb3 & Hb4).
  apply map_eq. intros k.
  destruct (decide (In k ["@context"; "id"; "sysSlug"; "label"; "email";
                          "sysPassword"])) as [Hk|Hk].
  - destruct Hk as [<- | [<- | Hk]]; [congruence | congruence |].
    rewrite (Ha3 k Hk), (Hb3 k Hk). reflexivity.
  - destruct (a !! k) eqn:Hak; [exfalso; apply Hk, Ha4; congruence|].
    destruct (b !! k) eqn:Hbk; [exfalso; apply Hk, Hb4; congruence|].
    reflexivity.
Qed.

(** [_createIdentity], from the answer of [brIdentity.createIdentity]. *)
Lemma _createIdentity_answer req (st : State E) ident r w :
  is_identity_document (E:=E) req ident ->
  brIdentity_createIdentity E ident (world st) = (r, w) ->
  _createIdentity req st =
    match r with
    | Ok record =>
        (Ok (record_identity record),
         {| world := w;
            trace := (trace st ++
                      [EvCreateIdentity ident;
                       EvEmitLater "brIdentity.created"
                         (record_identity record)])%list |})
    | Err err =>
        (Err (if db_isDuplicateError E err
              then duplicate_identity
                     (brIdentity_createIdentityId E (body req !! "sysSlug"))
              else err),
         {| world := w;
            trace := (trace st ++ [EvCreateIdentity ident])%list |})
    end.
Proof.
  intros Hdoc Hc.
  destruct (_createIdentity_unfold req st) as (ident' & Hdoc' & ->).
  rewrite (identity_document_unique req ident' ident Hdoc' Hdoc), Hc.
  destruct r; reflexivity.
Qed.

(** X10. What [_createIdentity] does follows the answer of
    [brIdentity.createIdentity] to the identity document of the request.
    When the identity is created, the result is the created identity and
    the event 'brIdentity.created' is emitted once, after the creation,
    with that identity. When the creation fails nothing is emitted; the
    result is the error of the identity module if that is not a duplicate
    error, and the error named 'bedrock.services.DuplicateIdentity' with
    httpStatusCode 400 that carries the new identity ID if it is. *)
Theorem createIdentity_outcome req (st : State E) ident r w :
  is_identity_document (E:=E) req ident ->
  brIdentity_createIdentity E ident (world st) = (r, w) ->
  _createIdentity req st =
    match r with
    | Ok record =>
        (Ok (record_identity record),
         {| world := w;
            trace := (trace st ++
                      [EvCreateIdentity ident;
                       EvEmitLater "brIdentity.created"
                         (record_identity record)])%list |})
    | Err err =>
        (Err (if db_isDuplicateError E err
              then BedrockError
                     "Could not create identity, it is a duplicate."
                     "bedrock.services.DuplicateIdentity"
                     {| public := Some true; httpStatusCode := Some 400;
                        sysIdentifier := None;
                        details_identity :=
                          Some (brIdentity_createIdentityId E
                                  (body req !! "sysSlug")) |}
                     None
              else err),
         {| world := w;
            trace := (trace st ++ [EvCreateIdentity ident])%list |})
    end.
Proof. exact (_createIdentity_answer req st ident r w). Qed.

(** How [_login] ends: after a [req.logIn] for the user the strategy handed
    over without an error, with the error of that call if any; or without
    any [req.logIn]. *)
Lemma _login_cases req (st : State E) :
  (exists u info w e w',
     passport_authenticate E "bedrock.password" req (world st) =
       (CustomCallback None (VUser u) info, w)
     /\ req_logIn E req u w = (e, w')
     /\ _login req st =
          (Callback e (VUser u) None,
           {| world := w';
              trace := (trace st ++ [EvAuthenticate "bedrock.password";
                                     EvLogIn u])%list |}))
  \/ (exists ids,
        trace (snd (_login req st)) =
          (trace st ++ EvAuthenticate "bedrock.password"
                    :: map EvGetIdentity ids)%list
        /\ ((exists err, fst (_login req st) = LoginNext err)
            \/ fst (_login req st) = LoginThrows
            \/ exists choice,
                 fst (_login req st) = Callback None VFalse (Some choice))).
Proof.
  unfold _login, bind, call.
  change (@add_identity E) with (@PassportLib.add_identity E).
  destruct (passport_authenticate E "bedrock.password" req (world st))
    as [[err u info|err] w];
    [|right; exists []; cbn; eauto].
  destruct u as [| |u].
  - right.
    destruct info as [info|]; [|exists []; cbn; eauto].
    destruct (matches info) as [ids|]; [|exists []; cbn; eauto].
    exists ids. unfold bind, ret.
    match goal with |- context [Async.forEach ids _ ?c' ?st'] =>
      destruct (forEach_add_identity ids c' st') as (Ht & _ & _);
      destruct (Async.forEach ids PassportLib.add_identity c' st')
        as [[[e|] c''] st'']
    end; cbn [fst snd trace] in *;
      (split; [rewrite Ht, <- app_assoc; reflexivity | eauto]).
  - right.
    destruct info as [info|]; [|exists []; cbn; eauto].
    destruct (matches info) as [ids|]; [|exists []; cbn; eauto].
    exists ids. unfold bind, ret.
    match goal with |- context [Async.forEach ids _ ?c' ?st'] =>
      destruct (forEach_add_identity ids c' st') as (Ht & _ & _);
      destruct (Async.forEach ids PassportLib.add_identity c' st')
        as [[[e|] c''] st'']
    end; cbn [fst snd trace] in *;
      (split; [rewrite Ht, <- app_assoc; reflexivity | eauto]).
  - destruct err as [e|]; [right; exists []; cbn; eauto|].
    left. cbn [world trace].
    destruct (req_logIn E req u w) as [e w'] eqn:Hl.
    exists u, info, w, e, w'. unfold ret. rewrite <- app_assoc. auto.
Qed.

(** X11. [POST /session/login] answers in one of two shapes. It sends
    [{identity: ...}] only with the identity of the user the password
    strategy handed over without an error, and only after [req.logIn] for
    that user succeeded; it sends [{email, identities}] only when no
    [req.logIn] was made, so offering a choice never establishes a
    session. *)
Theorem postLogin_replies req (st : State E) :
  forall rep,
    fst (postLogin req st) = Responded rep ->
    (exists u info w w',
       rep = Json 200 None (LoginIdentity (identity u))
       /\ passport_authenticate E "bedrock.password" req (world st) =
            (CustomCallback None (VUser u) info, w)
       /\ req_logIn E req u w = (None, w'))
    \/ (exists choice ids,
          rep = Json 200 None (LoginChoice choice)
          /\ trace (snd (postLogin req st)) =
               (trace st ++ EvAuthenticate "bedrock.password"
                         :: map EvGetIdentity ids)%list).
Proof.
  intros rep. unfold postLogin, bind, ret.
  destruct (_login_cases req st)
    as [(u & info & w & e & w' & Ha & Hl & ->)
       | (ids & Ht & Hres)].
  - cbn. destruct e as [e|]; [discriminate|].
    intros H. injection H as <-. left. eauto 8.
  - destruct (_login req st) as [o st'].
    cbn [fst snd] in *.
    destruct Hres as [[err ->] | [-> | [choice ->]]];
      [discriminate | discriminate |].
    intros H. injection H as <-. right. eauto.
Qed.

Lemma join_login_unique req created req' :
  is_join_login req created req' ->
  req' =
    set_body req
      (set_field "password" (body req !! "sysPassword")
         (set_field "sysIdentifier" (created !! "id") (body req))).
Proof.
  intros (Hu & Hq & Hi & Hp & Hk).
  destruct req' as [u b q]. cbn in *. subst u q. unfold set_body.
  f_equal. apply map_eq. intros k. rewrite !lookup_set_field.
  repeat case_decide; subst; try congruence.
  apply Hk; congruence.
Qed.

(** X12. What [POST /join] does follows the answers of the collaborators.
    When the creation of the identity fails, the error of [_createIdentity]
    goes to [next] and no login is attempted. When the identity is created,
    the login is made with [sysIdentifier] set to the ID of the created
    identity and [password] set to [sysPassword]; if the password strategy
    hands over a user, [req.logIn] is called for it: when that succeeds the
    answer is 201 with the created identity as body and its ID as
    [Location], and when it fails [next] gets the error named
    'bedrock.services.AutoLoginFailed' whose cause is the error of
    [req.logIn]. The route answers with nothing but that 201, and only
    when the identity was created. *)
Theorem postJoin_outcomes req (st : State E) ident :
  is_identity_document (E:=E) req ident ->
  (forall err w1,
     brIdentity_createIdentity E ident (world st) = (Err err, w1) ->
     postJoin req st =
       (CalledNext
          (Some (if db_isDuplicateError E err
                 then BedrockError
                        "Could not create identity, it is a duplicate."
                        "bedrock.services.DuplicateIdentity"
                        {| public := Some true; httpStatusCode := Some 400;
                           sysIdentifier := None;
                           details_identity :=
                             Some (brIdentity_createIdentityId E
                                     (body req !! "sysSlug")) |}
                        None
                 else err)),
        {| world := w1;
           trace := (trace st ++ [EvCreateIdentity ident])%list |}))
  /\ (forall record w1 req' u info w2 e w3,
        brIdentity_createIdentity E ident (world st) = (Ok record, w1) ->
        is_join_login req (record_identity record) req' ->
        passport_authenticate E "bedrock.password" req' w1 =
          (CustomCallback None (VUser u) info, w2) ->
        req_logIn E req' u w2 = (e, w3) ->
        postJoin req st =
          (match e with
           | None =>
               Responded (Json 201 (Some (record_identity record !! "id"))
                               (IdentityDocument (record_identity record)))
           | Some cause =>
               CalledNext
                 (Some (BedrockError
                          "Could not create a session for the newly created identity."
                          "bedrock.services.AutoLoginFailed"
                          {| public := None; httpStatusCode := None;
                             sysIdentifier := None;
                             details_identity := None |}
                          (Some cause)))
           end,
           {| world := w3;
              trace := (trace st ++
                        [EvCreateIdentity ident;
                         EvEmitLater "brIdentity.created"
                           (record_identity record);
                         EvAuthenticate "bedrock.password";
                         EvLogIn u])%list |}))
  /\ (forall rep,
        fst (postJoin req st) = Responded rep ->
        exists record w1,
          brIdentity_createIdentity E ident (world st) = (Ok record, w1)
          /\ rep = Json 201 (Some (record_identity record !! "id"))
                        (IdentityDocument (record_identity record))).
Proof.
  intros Hdoc. unfold postJoin, bind. split; [|split].
  - intros err w1 Hc.
    rewrite (_createIdentity_answer req st ident _ _ Hdoc Hc). reflexivity.
  - intros record w1 req' u info w2 e w3 Hc Hreq Ha Hl.
    rewrite (_createIdentity_answer req st ident _ _ Hdoc Hc).
    rewrite <- (join_login_unique _ _ _ Hreq).
    unfold _login, bind, call. cbn [world trace]. rewrite Ha.
    cbn [world trace]. rewrite Hl. unfold ret. cbn [trace].
    rewrite <- !app_assoc. destruct e; reflexivity.
  - intros rep.
    destruct (brIdentity_createIdentity E ident (world st))
      as [[record|err] w1] eqn:Hc;
      rewrite (_createIdentity_answer req st ident _ _ Hdoc Hc);
      [|discriminate].
    match goal with |- context [_login ?r ?s] =>
      destruct (_login r s) as [[[e|] v c|e|] st2]
    end; cbn; intros H; try discriminate.
    injection H as <-. eauto.
Qed.

(** X13. Every [setIdentityPassword] call that [POST /session/password/reset]
    makes acts as one of the identities the identifier resolved to and
    targets that same identity: the document it passes is the request body
    with [id] overwritten by that ID, so an [id] sent in the body never
    selects the identity whose password is set. *)
Theorem reset_attempts_target_resolved req (st : State E) :
  forall actor ident ok,
    In (EvSetIdentityPassword actor ident ok)
       (trace (snd (postPasswordReset req st))) ->
    In (EvSetIdentityPassword actor ident ok) (trace st)
    \/ (ident !! "id" = Some actor
        /\ (forall k, k <> "id" -> ident !! k = body req !! k)
        /\ exists ids w,
             brIdentity_resolveIdentityIdentifier E
               (body req !! "sysIdentifier") (world st) = (Ok ids, w)
             /\ In actor ids).
Proof.
  intros actor ident ok. unfold postPasswordReset, bind, call.
  destruct (brIdentity_resolveIdentityIdentifier E _ (world st))
    as [[ids|e] w] eqn:Hres.
  - fold (reset_loop req ids
            {| world := w;
               trace := (trace st ++
                         [EvResolveIdentityIdentifier
                            (body req !! "sysIdentifier")])%list |}).
    assert (Hatt : forall l (ids' : list string) b,
      (forall i, In i ids' -> In i ids) ->
      In (EvSetIdentityPassword actor ident ok) l ->
      (exists i, In i ids' /\ l = [attempt req i b]) \/
      l = map (fun i => attempt req i false) ids' ->
      ident !! "id" = Some actor
      /\ (forall k, k <> "id" -> ident !! k = body req !! k)
      /\ In actor ids).
    { intros l ids' b Hsub Hin [(i & Hi & ->) | ->].
      - destruct Hin as [Hin|[]]. injection Hin as <- <- _.
        split; [apply lookup_insert_eq|].
        split; [intros k Hk; apply lookup_insert_ne; congruence | auto].
      - apply in_map_iff in Hin. destruct Hin as (i & Hin & Hi).
        injection Hin as <- <- _.
        split; [apply lookup_insert_eq|].
        split; [intros k Hk; apply lookup_insert_ne; congruence | auto]. }
    match goal with |- context [reset_loop req ids ?s] =>
      destruct (reset_loop_cases req ids s)
        as [(pre & id & rest & w1 & w2 & Hids & _ & _ & Heq)
           | (w' & _ & Heq)];
      rewrite Heq
    end; cbn [fst snd trace]; unfold ret.
    + destruct (negb _); cbn [snd trace];
        intros Hin; apply in_app_or in Hin;
        (destruct Hin as [Hin|Hin];
         [apply in_app_or in Hin; destruct Hin as [Hin|[Hin|[]]];
          [left; exact Hin | discriminate]|]);
        right; apply in_app_or in Hin;
        (destruct Hin as [Hin|Hin];
         [destruct (Hatt _ pre false ltac:(intros i Hi; subst ids;
                      apply in_or_app; auto) Hin ltac:(auto))
            as (H1 & H2 & H3)
         |destruct (Hatt _ [id] true ltac:(intros i [<-|[]]; subst ids;
                      apply in_or_app; right; left; reflexivity)
                      Hin ltac:(left; exists id; cbn; auto))
            as (H1 & H2 & H3)]);
        eauto 8.
    + destruct (negb _); cbn [snd trace];
        intros Hin; apply in_app_or in Hin;
        (destruct Hin as [Hin|Hin];
         [apply in_app_or in Hin; destruct Hin as [Hin|[Hin|[]]];
          [left; exact Hin | discriminate]|]);
        right;
        destruct (Hatt _ ids false ltac:(auto) Hin ltac:(auto))
          as (H1 & H2 & H3); eauto 8.
  - cbn. intros Hin. apply in_app_or in Hin.
    destruct Hin as [Hin|[Hin|[]]]; [left; exact Hin | discriminate].
Qed.
End RoutesMore.

(** ** Session serialization, logout and the login page *)

Section SiteMore.
Context {E : Env} (site : Site E).

(** X14. The error handler passes an error on unchanged, without fetching
    view variables, whenever the error is not named
    'bedrock.website.PermissionDenied', or the user agent does not accept
    html, or the request is an XHR request, or the method is neither GET
    nor a POST of content type 'application/x-www-form-urlencoded'. *)
Theorem sendLoginPage_passes_on err req (st : State E) :
  error_name err <> Some "bedrock.website.PermissionDenied"
  \/ accepts_html req = false
  \/ xhr req = true
  \/ (http_method req <> "GET"
      /\ (http_method req <> "POST" \/ is_urlencoded req = false)) ->
  sendLoginPage site err req st = ([DoNext (Some err)], st).
Proof.
  intros H. unfold sendLoginPage.
  case_bool_decide as Hn; cbn [negb]; [|reflexivity].
  destruct (accepts_html req) eqn:Ha; cbn; [|reflexivity].
  destruct (xhr req) eqn:Hx; cbn; [reflexivity|].
  destruct (String.eqb_spec (http_method req) "GET") as [Hg|Hg]; cbn.
  { exfalso. destruct H as [H|[H|[H|[H _]]]]; congruence. }
  destruct (String.eqb_spec (http_method req) "POST") as [Hp|Hp]; cbn;
    [|reflexivity].
  destruct (is_urlencoded req) eqn:Hu; cbn; [|reflexivity].
  exfalso. destruct H as [H|[H|[H|[_ [H|H]]]]]; congruence.
Qed.

(** X15. For an error named 'bedrock.website.PermissionDenied', a user
    agent that accepts html, no XHR, and a GET or a url-encoded POST, the
    error handler renders 'main.html' (if the view variables can be
    fetched). The request is queued in the view variables with its method,
    its absolute URL and its body, except when it is a request to
    /session/login, which is not queued; the other view variables are left
    as fetched. *)
Theorem sendLoginPage_renders err req (st : State E) vars w :
  error_name err = Some "bedrock.website.PermissionDenied" ->
  accepts_html req = true ->
  xhr req = false ->
  http_method req = "GET"
  \/ (http_method req = "POST" /\ is_urlencoded req = true) ->
  getDefaultViewVars site req (world st) = (Ok vars, w) ->
  exists vars',
    sendLoginPage site err req st =
      ([DoRender "main.html" vars'], {| world := w; trace := trace st |})
    /\ redirect vars' = redirect vars
    /\ sysPasscode vars' = sysPasscode vars
    /\ defaults vars' = defaults vars
    /\ queuedRequest vars' =
         if bool_decide (url_pathname site (url req) = Some "/session/login")
         then queuedRequest vars
         else Some {| queued_method := http_method req;
                      queued_url := protocol req +:+ "://" +:+
                                    js_string (host req) +:+ url req;
                      queued_body := body (http_request req) |}.
Proof.
  intros Hn Ha Hx Hm Hv. unfold sendLoginPage.
  rewrite bool_decide_true by exact Hn. rewrite Ha, Hx. cbn [negb andb].
  assert (Hmeth : String.eqb (http_method req) "GET" ||
                  (String.eqb (http_method req) "POST" && is_urlencoded req)
                  = true).
  { destruct Hm as [-> | [-> ->]]; reflexivity. }
  rewrite Hmeth. cbn [negb].
  unfold bind, quiet, ret. cbv beta. rewrite Hv.
  eexists. split; [reflexivity|].
  case_bool_decide; cbn; auto.
Qed.

(** X16. The errors of [ensureAuthenticated] are the ones the error handler
    answers with the login page: for a browser GET (html accepted, no XHR)
    every error that [ensureAuthenticated] passes to [next] makes the
    error handler render 'main.html', as long as the view variables can be
    fetched. *)
Theorem ensureAuthenticated_error_renders_login
    sched r (st : State E) err req (st' : State E) vars w :
  snd (fst (PassportLib.ensureAuthenticated sched r st)) = Next (Some err) ->
  accepts_html req = true ->
  xhr req = false ->
  http_method req = "GET" ->
  getDefaultViewVars site req (world st') = (Ok vars, w) ->
  exists vars',
    fst (sendLoginPage site err req st') = [DoRender "main.html" vars'].
Proof.
  intros He Ha Hx Hm Hv.
  destruct (ensureAuthenticated_next sched r st err He) as [Hn _].
  unfold sendLoginPage.
  rewrite bool_decide_true by exact Hn. rewrite Ha, Hx, Hm. cbn [negb andb].
  change (String.eqb "GET" "GET") with true. cbn [negb orb].
  unfold bind, quiet, ret. cbv beta. rewrite Hv.
  cbn [fst]. eauto.
Qed.

(** X17. [GET /session/logout] always ends with a redirect to '/'.
    Without a session nothing is destroyed and the redirect is all that
    happens. With a session it is destroyed: when that succeeds the
    redirect is sent, and when it fails [next(err)] is called with the
    error of the session store and the redirect is sent all the same, so
    both happen. *)
Theorem getLogout_always_redirects req (st : State E) :
  (has_session req = false ->
   getLogout site req st = ([DoRedirect "/"], st))
  /\ (has_session req = true ->
      forall e w,
        session_destroy site (world st) = (e, w) ->
        getLogout site req st =
          (match e with
           | Some err => [DoNext (Some err); DoRedirect "/"]
           | None => [DoRedirect "/"]
           end,
           {| world := w; trace := trace st |})).
Proof.
  unfold getLogout, bind, quiet, ret. split; intros Hs; rewrite Hs.
  - reflexivity.
  - intros e w Hd. rewrite Hd. destruct e; reflexivity.
Qed.

End SiteMore.

(** ** The further properties at sample inputs *)

(** X6 where the credentials match alice and bob. *)
Lemma login_multiple_matches_witness :
  PassportLib.login (E:=env_password_matches)
    (request VFalse []) (start env_password_matches tt) =
  (Callback None VFalse
     (Some {| choice_email := Some "ab@example.com";
              identities := <["bob" := {[ "id" := "bob" ]}]>
                              (<["alice" := {[ "id" := "alice" ]}]> ∅) |}),
   {| world := tt : World env_password_matches;
      trace := [EvAuthenticate "bedrock.password"; EvGetIdentity "alice";
                EvGetIdentity "bob"] |}).
Proof.
  destruct (login_multiple_matches (E:=env_password_matches)
              (request VFalse []) (start env_password_matches tt)
              None VFalse
              {| matches := Some ["alice"; "bob"];
                 email := Some "ab@example.com" |}
              ["alice"; "bob"] tt eq_refl eq_refl eq_refl) as [Heq _].
  rewrite Heq. reflexivity.
Defined.

(** X7 where the password strategy authenticates alice. *)
Lemma logIn_only_for_authenticated_user_witness :
  In (EvLogIn alice) (trace (start env_password_alice tt))
  \/ exists info w,
       passport_authenticate env_password_alice "bedrock.password"
         (request VFalse []) (world (start env_password_alice tt)) =
         (CustomCallback None (VUser alice) info, w).
Proof.
  apply (proj1 (logIn_only_for_authenticated_user (E:=env_password_alice)
                  (request VFalse []) (start env_password_alice tt))).
  cbn. auto.
Defined.

(** X8 where the password strategy fails with an error. *)
Lemma login_throws_without_info_witness :
  fst (PassportLib.login (E:=env_signature_error) (request VFalse [])
         (start env_signature_error tt)) = LoginThrows
  /\ fst (Routes._login (E:=env_signature_error) (request VFalse [])
            (start env_signature_error tt)) = LoginThrows.
Proof.
  apply (login_throws_without_info (E:=env_signature_error)
           (request VFalse []) (start env_signature_error tt)
           (Some (ExternalError "signature")) VUndefined tt);
    reflexivity.
Defined.

(** X9 for a body that also carries an [id]. *)
Lemma createIdentity_document_witness :
  exists ident,
    In (EvCreateIdentity ident)
       (trace (snd (Routes._createIdentity (E:=env_password_alice)
                      (request VFalse [("email", "a@example.com");
                                       ("id", "mallory")])
                      (start env_password_alice tt))))
    /\ ident !! "email" = Some "a@example.com"
    /\ ident !! "id" = Some "https://example.com/i/new".
Proof.
  destruct (createIdentity_document (E:=env_password_alice)
              (request VFalse [("email", "a@example.com");
                               ("id", "mallory")])
              (start env_password_alice tt))
    as (ident & evs & Ht & Hid & _ & Hk & _).
  exists ident. rewrite Ht. split; [cbn; auto|]. split; [|exact Hid].
  rewrite Hk by (cbn; auto). reflexivity.
Defined.

Lemma join_document_ok :
  is_identity_document (E:=env_password_alice) join_request join_document.
Proof.
  split; [reflexivity|]. split; [reflexivity|]. split.
  - intros k [<- | [<- | [<- | [<- | []]]]]; reflexivity.
  - intros k. unfold join_document. rewrite !lookup_insert.
    repeat (case_decide; [subst; intros _; cbn; tauto|]).
    rewrite lookup_empty. congruence.
Defined.

Lemma join_login_request_ok :
  is_join_login join_request join_document join_login_request.
Proof.
  split; [reflexivity|]. split; [reflexivity|].
  split; [reflexivity|]. split; [reflexivity|].
  intros k Hi Hp. cbn [join_login_request set_body body].
  rewrite !lookup_insert_ne by congruence. reflexivity.
Defined.

(** X10 where the identity module creates the identity. *)
Lemma createIdentity_outcome_witness :
  Routes._createIdentity (E:=env_password_alice) join_request
    (start env_password_alice tt) =
  (Ok join_document,
   {| world := tt : World env_password_alice;
      trace := [EvCreateIdentity join_document;
                EvEmitLater "brIdentity.created" join_document] |}).
Proof.
  exact (createIdentity_outcome (E:=env_password_alice) join_request
           (start env_password_alice tt) join_document
           (Ok {| record_identity := join_document |}) tt
           join_document_ok eq_refl).
Defined.

(** X11 where the password strategy authenticates alice. *)
Lemma postLogin_replies_witness :
  (exists u info w w',
     Json 200 None (LoginIdentity (identity alice)) =
       Json 200 None (LoginIdentity (identity u))
     /\ passport_authenticate env_password_alice "bedrock.password"
          (request VFalse []) (world (start env_password_alice tt)) =
          (CustomCallback None (VUser u) info, w)
     /\ req_logIn env_password_alice (request VFalse []) u w = (None, w'))
  \/ (exists choice ids,
        Json 200 None (LoginIdentity (identity alice)) =
          Json 200 None (LoginChoice choice)
        /\ trace (snd (Routes.postLogin (E:=env_password_alice)
                         (request VFalse []) (start env_password_alice tt))) =
             (trace (start env_password_alice tt) ++
              EvAuthenticate "bedrock.password" :: map EvGetIdentity ids)%list).
Proof.
  apply (postLogin_replies (E:=env_password_alice) (request VFalse [])
           (start env_password_alice tt)).
  reflexivity.
Defined.

(** X12 where the identity is created and alice is logged in. *)
Lemma postJoin_outcomes_witness :
  Routes.postJoin (E:=env_password_alice) join_request
    (start env_password_alice tt) =
  (Responded (Json 201 (Some (join_document !! "id"))
                  (IdentityDocument join_document)),
   {| world := tt : World env_password_alice;
      trace := [EvCreateIdentity join_document;
                EvEmitLater "brIdentity.created" join_document;
                EvAuthenticate "bedrock.password"; EvLogIn alice] |}).
Proof.
  exact (proj1 (proj2 (postJoin_outcomes (E:=env_password_alice)
                         join_request (start env_password_alice tt)
                         join_document join_document_ok))
           {| record_identity := join_document |} tt join_login_request
           alice None tt None tt
           eq_refl join_login_request_ok eq_refl eq_refl).
Defined.

(** X13 at the successful attempt for bob. *)
Lemma reset_attempts_target_resolved_witness :
  In (attempt (request VFalse [("sysIdentifier", "abc")]) "bob" true)
     (trace (start env_reset_bob tt))
  \/ ((<["id" := "bob"]> (body (request VFalse [("sysIdentifier", "abc")])))
        !! "id" = Some "bob"
      /\ (forall k, k <> "id" ->
            (<["id" := "bob"]>
               (body (request VFalse [("sysIdentifier", "abc")]))) !! k =
            body (request VFalse [("sysIdentifier", "abc")]) !! k)
      /\ exists ids w,
           brIdentity_resolveIdentityIdentifier env_reset_bob
             (body (request VFalse [("sysIdentifier", "abc")])
                !! "sysIdentifier")
             (world (start env_reset_bob tt)) = (Ok ids, w)
           /\ In "bob" ids).
Proof.
  apply (reset_attempts_target_resolved (E:=env_reset_bob)
           (request VFalse [("sysIdentifier", "abc")])
           (start env_reset_bob tt) "bob" _ true).
  rewrite postPasswordReset_second_succeeds. cbn. auto.
Defined.

(** X14 for a script posting JSON. *)
Lemma sendLoginPage_passes_on_witness :
  sendLoginPage (sample_site env_unsigned) PassportLib.not_authenticated
    (xhr_post "/account") (start env_unsigned tt) =
  ([DoNext (Some PassportLib.not_authenticated)], start env_unsigned tt).
Proof.
  apply (sendLoginPage_passes_on (sample_site env_unsigned)).
  right. right. left. reflexivity.
Defined.

(** X15 for a browser asking for /account. *)
Lemma sendLoginPage_renders_witness :
  exists vars',
    fst (sendLoginPage (sample_site env_unsigned)
           PassportLib.not_authenticated (browser_get "/account")
           (start env_unsigned tt)) = [DoRender "main.html" vars']
    /\ queuedRequest vars' =
         Some {| queued_method := "GET";
                 queued_url := "https://example.com/account";
                 queued_body := ∅ |}.
Proof.
  destruct (sendLoginPage_renders (sample_site env_unsigned)
              PassportLib.not_authenticated (browser_get "/account")
              (start env_unsigned tt) no_vars tt
              eq_refl eq_refl eq_refl (or_introl eq_refl) eq_refl)
    as (vars' & Heq & _ & _ & _ & Hq).
  exists vars'. rewrite Heq, Hq. split; reflexivity.
Defined.

(** X16 for a browser without session asking for /account. *)
Lemma ensureAuthenticated_error_renders_login_witness :
  exists vars',
    fst (sendLoginPage (sample_site env_unsigned)
           PassportLib.not_authenticated (browser_get "/account")
           (start env_unsigned tt)) = [DoRender "main.html" vars'].
Proof.
  apply (ensureAuthenticated_error_renders_login (sample_site env_unsigned)
           [] (request VUndefined []) (start env_unsigned tt)
           PassportLib.not_authenticated (browser_get "/account")
           (start env_unsigned tt) no_vars tt); reflexivity.
Defined.

(** X17 where destroying the session fails: [next(err)], then the
    redirect. *)
Lemma getLogout_always_redirects_witness :
  getLogout (sample_site env_unsigned) (browser_get "/session/logout")
    (start env_unsigned tt) =
  ([DoNext (Some (ExternalError "store")); DoRedirect "/"],
   start env_unsigned tt).
Proof.
  exact (proj2 (getLogout_always_redirects (sample_site env_unsigned)
                  (browser_get "/session/logout") (start env_unsigned tt))
           eq_refl (Some (ExternalError "store")) tt eq_refl).
Defined.

